(** * Chrono-Pulse: the inference pipeline of [backend/main.py]

    A shallow embedding of the prediction endpoint of the Chrono-Pulse API
    ([predict], [generate_recommendations] and the module-level block that
    loads the pickled artifacts), and the properties of the encoder, of the
    readiness check and of the recommendation rules.

    Conventions.
    - Python [int] is [Z]; Python [float] is the kernel's binary64 [float];
      [str] is [string] (the bytes of the UTF-8 text, so equality of strings
      is equality of code points).
    - A [dict] keeps its insertion order: it is an association list with
      unique keys, updated in place by [dict_set].
    - The one-row [pandas.DataFrame] is the list of its columns, each a label
      with the cell of row 0.
    - The scaler and the classifier are objects of scikit-learn, outside the
      repository: they are fields of records, functions that either raise
      (with the text of the exception) or return. *)

From Stdlib Require Import ZArith List String Ascii Bool Lia.
From Stdlib Require Import Floats.PrimFloat.
Import ListNotations.

Local Open Scope string_scope.
Local Open Scope Z_scope.

(** ** Insertion-ordered dictionaries with string keys *)

Set Implicit Arguments.

Section Dict.
Variable V : Type.

Definition dict : Type := list (string * V).

(** [d[k]], [None] for a [KeyError]. *)
Fixpoint dict_get (d : dict) (k : string) : option V :=
  match d with
  | [] => None
  | (k', v) :: d' => if String.eqb k' k then Some v else dict_get d' k
  end.

(** [d[k] = v]: an existing key keeps its place, a new one goes last. *)
Fixpoint dict_set (d : dict) (k : string) (v : V) : dict :=
  match d with
  | [] => [(k, v)]
  | (k', v') :: d' =>
      if String.eqb k' k then (k', v) :: d' else (k', v') :: dict_set d' k v
  end.

Definition dict_keys (d : dict) : list string := map fst d.
Definition dict_values (d : dict) : list V := map snd d.

(** [{k: v for k, v in items}] and every other loop of assignments. *)
Definition dict_update (d : dict) (items : list (string * V)) : dict :=
  fold_left (fun acc kv => dict_set acc (fst kv) (snd kv)) items d.
End Dict.

Unset Implicit Arguments.

(** ** Request and response models *)

Record PredictionInput : Type := {
  age : Z;
  gender : string;
  occupation : string;
  sleep_duration : float;
  quality_of_sleep : Z;
  physical_activity_level : Z;
  stress_level : Z;
  bmi_category : string;
  heart_rate : Z;
  daily_steps : Z;
  systolic_bp : Z;
  diastolic_bp : Z
}.

(** ** [generate_recommendations] *)

Definition msg_sleep_duration : string :=
  "⏰ Aim for 7-9 hours of sleep per night for optimal health".
Definition msg_quality_of_sleep : string :=
  "🛏️ Focus on improving sleep quality - maintain a consistent sleep schedule".
Definition msg_stress_level : string :=
  "🧘 Practice stress management techniques like meditation, yoga, or deep breathing".
Definition msg_physical_activity : string :=
  "🏃 Increase physical activity to at least 30 minutes of moderate exercise daily".
Definition msg_daily_steps : string :=
  "👟 Try to achieve at least 7,000-10,000 steps per day".
Definition msg_heart_rate : string :=
  "💓 Monitor your heart rate - consult a doctor if it remains consistently elevated".
Definition msg_blood_pressure : string :=
  "🩺 Your blood pressure is elevated - please consult a healthcare provider".
Definition msg_default : string :=
  "✨ Your health metrics look good! Keep up the healthy habits".

(** [recommendations.append(msg)] under [if cond:]. *)
Definition append_if (cond : bool) (msg : string) (recommendations : list string)
  : list string :=
  if cond then (recommendations ++ [msg])%list else recommendations.

Definition generate_recommendations (data : PredictionInput) : list string :=
  let recommendations := [] in
  let recommendations :=
    append_if (PrimFloat.ltb (sleep_duration data) 7%float)
      msg_sleep_duration recommendations in
  let recommendations :=
    append_if (quality_of_sleep data <? 6) msg_quality_of_sleep recommendations in
  let recommendations :=
    append_if (stress_level data >? 6) msg_stress_level recommendations in
  let recommendations :=
    append_if (physical_activity_level data <? 30)
      msg_physical_activity recommendations in
  let recommendations :=
    append_if (daily_steps data <? 5000) msg_daily_steps recommendations in
  let recommendations :=
    append_if (heart_rate data >? 90) msg_heart_rate recommendations in
  let recommendations :=
    append_if ((systolic_bp data >? 130) || (diastolic_bp data >? 85))
      msg_blood_pressure recommendations in
  let recommendations :=
    append_if (match recommendations with [] => true | _ => false end)
      msg_default recommendations in
  recommendations.

(** ** The feature encoder: lines 100-136 of [predict] *)

(** A cell of the frame: the integer fields stay integers, the sleep duration
    is a float. *)
Inductive value : Type :=
| VInt (n : Z)
| VFloat (x : float).

Definition occupations : list string :=
  ["Accountant"; "Doctor"; "Engineer"; "Lawyer"; "Manager";
   "Nurse"; "Sales Representative"; "Salesperson"; "Scientist";
   "Software Engineer"; "Teacher"].

Definition bmi_categories : list string :=
  ["Normal"; "Normal Weight"; "Obese"; "Overweight"].

(** [1 if a == b else 0] *)
Definition indicator (a b : string) : value :=
  VInt (if String.eqb a b then 1 else 0).

(** [for c in categories[1:]: data[f'{prefix}{c}'] = 1 if x == c else 0] *)
Definition one_hot (prefix : string) (categories : list string) (x : string)
    (data : dict value) : dict value :=
  fold_left (fun data c => dict_set data (prefix ++ c) (indicator x c))
    (skipn 1 categories) data.

(** The dictionary [data] as it stands at line 126. *)
Definition data (input_data : PredictionInput) : dict value :=
  let data : dict value :=
    dict_update []
      [("Age", VInt (age input_data));
       ("Sleep Duration", VFloat (sleep_duration input_data));
       ("Quality of Sleep", VInt (quality_of_sleep input_data));
       ("Physical Activity Level", VInt (physical_activity_level input_data));
       ("Stress Level", VInt (stress_level input_data));
       ("Heart Rate", VInt (heart_rate input_data));
       ("Daily Steps", VInt (daily_steps input_data));
       ("Systolic_BP", VInt (systolic_bp input_data));
       ("Diastolic_BP", VInt (diastolic_bp input_data))] in
  let data := dict_set data "Gender_Male" (indicator (gender input_data) "Male") in
  let data := one_hot "Occupation_" occupations (occupation input_data) data in
  let data := one_hot "BMI Category_" bmi_categories (bmi_category input_data) data in
  data.

(** A frame of one row: its columns in order, each a label and the cell of
    row 0.  pandas allows a label to repeat. *)
Definition DataFrame : Type := list (string * value).

(** [pd.DataFrame([data])]: one column per key, in the order of the keys. *)
Definition pd_DataFrame (row : dict value) : DataFrame := row.

Definition columns (df : DataFrame) : list string := map fst df.

(** [label in df.columns] *)
Definition in_columns (label : string) (df : DataFrame) : bool :=
  existsb (String.eqb label) (columns df).

(** [df[label] = v]: every column of that label is overwritten; a new label
    is a new last column. *)
Definition df_setitem (df : DataFrame) (label : string) (v : value) : DataFrame :=
  if in_columns label df
  then map (fun c => if String.eqb (fst c) label then (fst c, v) else c) df
  else (df ++ [(label, v)])%list.

(** [df[labels]]: for each label in turn the columns that carry it; a label
    carried by no column is a [KeyError] ([None]). *)
Fixpoint df_getitem (df : DataFrame) (labels : list string) : option DataFrame :=
  match labels with
  | [] => Some []
  | label :: labels' =>
      match filter (fun c => String.eqb (fst c) label) df with
      | [] => None
      | cols =>
          match df_getitem df labels' with
          | Some rest => Some (cols ++ rest)%list
          | None => None
          end
      end
  end.

(** Lines 131-133: [for feature in feature_names: if feature not in
    input_df.columns: input_df[feature] = 0]. *)
Definition ensure_features (feature_names : list string) (input_df : DataFrame)
  : DataFrame :=
  fold_left
    (fun input_df feature =>
       if negb (in_columns feature input_df)
       then df_setitem input_df feature (VInt 0)
       else input_df)
    feature_names input_df.

(** [input_df] as it stands after line 136, [None] if line 136 raised. *)
Definition input_df (input_data : PredictionInput) (feature_names : list string)
  : option DataFrame :=
  let input_df := pd_DataFrame (data input_data) in
  let input_df := ensure_features feature_names input_df in
  df_getitem input_df feature_names.

(** The encoded feature vector: row 0 of the frame handed to the scaler. *)
Definition row0 (df : DataFrame) : list value := map snd df.

(** ** Artifacts, exceptions and the response *)

(** A two-dimensional array of floats, by rows. *)
Definition ndarray : Type := list (list float).

Inductive exn : Type :=
| NameError (name : string)       (* a global that was never bound *)
| KeyError (keys : list string)   (* the keys or labels that are missing *)
| IndexError
| OtherError (text : string).     (* any other exception, with its text *)

(** What a call into a library does: it raises or it returns. *)
Definition outcome (A : Type) : Type := (exn + A)%type.

Record Scaler : Type := {
  transform : DataFrame -> outcome ndarray
}.

Module Model.
Record t : Type := {
  classes_ : list string;
  predict : ndarray -> outcome (list string);
  predict_proba : ndarray -> outcome ndarray
}.
End Model.

Inductive Any : Type :=
| AStr (s : string)
| AFloat (x : float)
| AList (l : list string).

Module PredictionOutput.
Record t : Type := {
  prediction : string;
  confidence : dict float;
  recommendations : list string;
  model_info : dict Any
}.
End PredictionOutput.

(** [detail] of the two exceptions the endpoint raises: ["Model not loaded"]
    and [f"Prediction error: {str(e)}"]. *)
Inductive detail : Type :=
| Model_not_loaded
| Prediction_error (e : exn).

Inductive HTTPException : Type :=
| HTTP (status_code : Z) (d : detail).

(** ** The module-level load block, lines 26-38 *)

(** What [pickle.load] does on each of the four files. *)
Record Files : Type := {
  best_model_pkl : outcome Model.t;
  scaler_pkl : outcome Scaler;
  feature_names_pkl : outcome (list string);
  model_info_pkl : outcome (dict Any)
}.

(** The module's globals once the block has run.  [model] is always bound,
    to an object or to Python's [None]; for the other three [None] says that
    the name was never bound. *)
Record Globals : Type := {
  model : option Model.t;
  scaler : option Scaler;
  feature_names : option (list string);
  model_info : option (dict Any)
}.

Definition load (fs : Files) : Globals :=
  match best_model_pkl fs with
  | inl _ =>
      {| model := None; scaler := None; feature_names := None; model_info := None |}
  | inr m =>
      match scaler_pkl fs with
      | inl _ =>
          {| model := None; scaler := None; feature_names := None;
             model_info := None |}
      | inr s =>
          match feature_names_pkl fs with
          | inl _ =>
              {| model := None; scaler := Some s; feature_names := None;
                 model_info := None |}
          | inr names =>
              match model_info_pkl fs with
              | inl _ =>
                  {| model := None; scaler := Some s; feature_names := Some names;
                     model_info := None |}
              | inr info =>
                  {| model := Some m; scaler := Some s;
                     feature_names := Some names; model_info := Some info |}
              end
          end
      end
  end.

(** [is_ready] of the health check: [model is not None]. *)
Definition model_loaded (g : Globals) : bool :=
  match model g with Some _ => true | None => false end.

(** ** The body of [predict]: exceptions and the calls it makes *)

(** The calls out of the endpoint: building the frame (encoding), the
    scaler (scaling), the two calls of the classifier (classification). *)
Inductive call : Type :=
| Call_DataFrame
| Call_transform
| Call_predict
| Call_predict_proba.

(** A computation: the calls made so far, in order, and how it ended. *)
Definition M (A : Type) : Type := (list call * outcome A)%type.

Definition ret {A : Type} (a : A) : M A := ([], inr a).

Definition raise {A : Type} (e : exn) : M A := ([], inl e).

Definition bind {A B : Type} (c : M A) (k : A -> M B) : M B :=
  match c with
  | (tr, inl e) => (tr, inl e)
  | (tr, inr a) => let (tr', r) := k a in ((tr ++ tr')%list, r)
  end.

Notation "x <- c ;; k" := (bind c (fun x => k))
  (at level 61, c at next level, right associativity).

(** One call of a library. *)
Definition invoke {A : Type} (c : call) (r : outcome A) : M A := ([c], r).

(** Reading a global. *)
Definition global {A : Type} (name : string) (binding : option A) : M A :=
  match binding with
  | Some a => ret a
  | None => raise (NameError name)
  end.

(** [a[0]] *)
Definition item0 {A : Type} (a : list A) : M A :=
  match a with
  | x :: _ => ret x
  | [] => raise IndexError
  end.

(** [d[k]] *)
Definition getitem {A : Type} (d : dict A) (k : string) : M A :=
  match dict_get d k with
  | Some a => ret a
  | None => raise (KeyError [k])
  end.

(** [input_df[feature_names]] *)
Definition select (df : DataFrame) (labels : list string) : M DataFrame :=
  match df_getitem df labels with
  | Some df' => ret df'
  | None => raise (KeyError (filter (fun l => negb (in_columns l df)) labels))
  end.

(** Lines 146-149: [{cls: float(prob * 100) for cls, prob in
    zip(model.classes_, prediction_proba)}]. *)
Definition confidence (classes_ : list string) (prediction_proba : list float)
  : dict float :=
  dict_update []
    (map (fun cp => (fst cp, (snd cp * 100)%float))
       (combine classes_ prediction_proba)).

(** Lines 99-136, the first part of the body of the [try]: the frame
    handed to the scaler. *)
Definition encode (g : Globals) (input_data : PredictionInput) : M DataFrame :=
  let data := data input_data in
  input_df <- invoke Call_DataFrame (inr (pd_DataFrame data)) ;;
  names <- global "feature_names" (feature_names g) ;;
  let input_df := ensure_features names input_df in
  select input_df names.

(** Lines 138-162, the rest of the body of the [try]. *)
Definition infer (g : Globals) (m : Model.t) (input_data : PredictionInput)
    (input_df : DataFrame) : M PredictionOutput.t :=
  sc <- global "scaler" (scaler g) ;;
  input_scaled <- invoke Call_transform (transform sc input_df) ;;
  labels <- invoke Call_predict (Model.predict m input_scaled) ;;
  prediction <- item0 labels ;;
  proba <- invoke Call_predict_proba (Model.predict_proba m input_scaled) ;;
  prediction_proba <- item0 proba ;;
  let confidence := confidence (Model.classes_ m) prediction_proba in
  let recommendations := generate_recommendations input_data in
  info <- global "model_info" (model_info g) ;;
  model_name <- getitem info "model_name" ;;
  accuracy <- getitem info "accuracy" ;;
  ret {| PredictionOutput.prediction := prediction;
         PredictionOutput.confidence := confidence;
         PredictionOutput.recommendations := recommendations;
         PredictionOutput.model_info :=
           dict_update [] [("model_name", model_name); ("accuracy", accuracy)] |}.

(** Lines 99-162, the body of the [try]. *)
Definition predict_body (g : Globals) (m : Model.t) (input_data : PredictionInput)
  : M PredictionOutput.t :=
  input_df <- encode g input_data ;;
  infer g m input_data input_df.

(** The endpoint: the calls it made, and the exception or the response. *)
Definition predict (g : Globals) (input_data : PredictionInput)
  : list call * (HTTPException + PredictionOutput.t) :=
  match model g with
  | None => ([], inl (HTTP 500 Model_not_loaded))
  | Some m =>
      match predict_body g m input_data with
      | (tr, inl e) => (tr, inl (HTTP 500 (Prediction_error e)))
      | (tr, inr out) => (tr, inr out)
      end
  end.

(** ** The other endpoints, lines 61-90 *)

(** A value of the two small objects the first two endpoints answer with. *)
Inductive scalar : Type :=
| SStr (s : string)
| SBool (b : bool).

(** [read_root], lines 62-68. *)
Definition read_root : dict scalar :=
  dict_update []
    [("message", SStr "Welcome to Chrono-Pulse AI API");
     ("version", SStr "1.0.0");
     ("status", SStr "active")].

(** [health_check], lines 71-76. *)
Definition health_check (g : Globals) : dict scalar :=
  dict_update []
    [("status", SStr "healthy");
     ("model_loaded", SBool (model_loaded g))].

(** How an endpoint without a [try] ends: it returns, it raises an
    [HTTPException], or an exception leaves it uncaught. *)
Inductive reply (A : Type) : Type :=
| Returned (a : A)
| HTTP_raised (h : HTTPException)
| Uncaught (e : exn).

Arguments Returned {A} a.
Arguments HTTP_raised {A} h.
Arguments Uncaught {A} e.

(** [model_info[k]], the global read anew. *)
Definition model_info_item (g : Globals) (k : string) : M Any :=
  info <- global "model_info" (model_info g) ;;
  getitem info k.

(** [get_model_info], lines 79-90. *)
Definition get_model_info (g : Globals) : reply (dict Any) :=
  match model g with
  | None => HTTP_raised (HTTP 500 Model_not_loaded)
  | Some _ =>
      let answer : M (dict Any) :=
        model_name <- model_info_item g "model_name" ;;
        accuracy <- model_info_item g "accuracy" ;;
        precision <- model_info_item g "precision" ;;
        recall <- model_info_item g "recall" ;;
        f1_score <- model_info_item g "f1_score" ;;
        classes <- model_info_item g "classes" ;;
        ret (dict_update []
               [("model_name", model_name); ("accuracy", accuracy);
                ("precision", precision); ("recall", recall);
                ("f1_score", f1_score); ("classes", classes)]) in
      match answer with
      | (_, inl e) => Uncaught e
      | (_, inr d) => Returned d
      end
  end.

(** ** The notions the properties are stated with *)

(** The seven threshold rules as the table of the specification has them:
    the condition on the record, and the message. *)
Definition rules (d : PredictionInput) : list (bool * string) :=
  [ (PrimFloat.ltb (sleep_duration d) 7%float, msg_sleep_duration);
    (quality_of_sleep d <? 6, msg_quality_of_sleep);
    (stress_level d >? 6, msg_stress_level);
    (physical_activity_level d <? 30, msg_physical_activity);
    (daily_steps d <? 5000, msg_daily_steps);
    (heart_rate d >? 90, msg_heart_rate);
    ((systolic_bp d >? 130) || (diastolic_bp d >? 85), msg_blood_pressure) ].

Definition threshold_messages : list string :=
  [ msg_sleep_duration; msg_quality_of_sleep; msg_stress_level;
    msg_physical_activity; msg_daily_steps; msg_heart_rate;
    msg_blood_pressure ].

(** The messages of the rules that fire, in the order of the table. *)
Definition fired (d : PredictionInput) : list string :=
  map snd (filter fst (rules d)).

(** No threshold condition triggers. *)
Definition no_threshold (d : PredictionInput) : Prop :=
  PrimFloat.ltb (sleep_duration d) 7%float = false /\
  6 <= quality_of_sleep d /\
  stress_level d <= 6 /\
  30 <= physical_activity_level d /\
  5000 <= daily_steps d /\
  heart_rate d <= 90 /\
  systolic_bp d <= 130 /\
  diastolic_bp d <= 85.

(** The value an encoded vector holds under the label [name]: the entry of
    [data], and 0 for a label [data] does not have. *)
Definition feature (input_data : PredictionInput) (name : string) : value :=
  match dict_get (data input_data) name with
  | Some v => v
  | None => VInt 0
  end.

(** The labels of the indicator columns of a one-hot group. *)
Definition indicator_labels (prefix : string) (categories : list string)
  : list string :=
  map (String.append prefix) (skipn 1 categories).

(** How many cells of a list are the integer 1. *)
Definition ones (cells : list value) : nat :=
  List.length
    (filter (fun v => match v with VInt 1 => true | _ => false end) cells).

(** Two records that agree in every field but [gender]. *)
Definition same_but_gender (a b : PredictionInput) : Prop :=
  age a = age b /\
  occupation a = occupation b /\
  sleep_duration a = sleep_duration b /\
  quality_of_sleep a = quality_of_sleep b /\
  physical_activity_level a = physical_activity_level b /\
  stress_level a = stress_level b /\
  bmi_category a = bmi_category b /\
  heart_rate a = heart_rate b /\
  daily_steps a = daily_steps b /\
  systolic_bp a = systolic_bp b /\
  diastolic_bp a = diastolic_bp b.




(** A load that raised. *)
Definition raised {A : Type} (r : outcome A) : Prop := exists e, r = inl e.

(** The artifact store is unloaded: one of the four artifacts failed to
    load. *)
Definition unloaded (fs : Files) : Prop :=
  raised (best_model_pkl fs) \/ raised (scaler_pkl fs) \/
  raised (feature_names_pkl fs) \/ raised (model_info_pkl fs).


(** The measurements of the scenario in which every rule fires. *)
Definition scenario_all (d : PredictionInput) : Prop :=
  sleep_duration d = 5%float /\ quality_of_sleep d = 4 /\ stress_level d = 8 /\
  physical_activity_level d = 10 /\ daily_steps d = 2000 /\ heart_rate d = 95 /\
  systolic_bp d = 140 /\ diastolic_bp d = 90.

(** The measurements of the scenario in which no rule fires. *)
Definition scenario_good (d : PredictionInput) : Prop :=
  sleep_duration d = 8%float /\ quality_of_sleep d = 8 /\ stress_level d = 3 /\
  physical_activity_level d = 45 /\ daily_steps d = 8000 /\ heart_rate d = 70 /\
  systolic_bp d = 115 /\ diastolic_bp d = 75.

(** The keys [get_model_info] reads, in the order it reads them. *)
Definition model_info_keys : list string :=
  ["model_name"; "accuracy"; "precision"; "recall"; "f1_score"; "classes"].

(** The first of [keys] that [d] lacks. *)
Definition first_missing {V : Type} (d : dict V) (keys : list string)
  : option string :=
  find (fun k => match dict_get d k with Some _ => false | None => true end) keys.

(** The four calls of a run of [predict] that goes through. *)
Definition all_calls : list call :=
  [Call_DataFrame; Call_transform; Call_predict; Call_predict_proba].

(** [l] is [l'] with some elements left out, the order kept. *)
Inductive subsequence {A : Type} : list A -> list A -> Prop :=
| subsequence_nil : subsequence [] []
| subsequence_skip (x : A) (l l' : list A) :
    subsequence l l' -> subsequence l (x :: l')
| subsequence_keep (x : A) (l l' : list A) :
    subsequence l l' -> subsequence (x :: l) (x :: l').

(** Two records with the same eight measurements, the fields
    [generate_recommendations] reads. *)
Definition same_measurements (a b : PredictionInput) : Prop :=
  sleep_duration a = sleep_duration b /\
  quality_of_sleep a = quality_of_sleep b /\
  stress_level a = stress_level b /\
  physical_activity_level a = physical_activity_level b /\
  daily_steps a = daily_steps b /\
  heart_rate a = heart_rate b /\
  systolic_bp a = systolic_bp b /\
  diastolic_bp a = diastolic_bp b.

(** Two strings the one-hot encoding of a group cannot tell apart: they are
    equal, or neither is a category with an indicator. *)
Definition same_category (categories : list string) (x y : string) : Prop :=
  x = y \/
  (~ In x (skipn 1 categories) /\ ~ In y (skipn 1 categories)).

(** Two records the encoder cannot tell apart: the same numbers, and
    categorical fields with the same indicators. *)
Definition same_encoding (a b : PredictionInput) : Prop :=
  age a = age b /\
  same_measurements a b /\
  (gender a = "Male" <-> gender b = "Male") /\
  same_category occupations (occupation a) (occupation b) /\
  same_category bmi_categories (bmi_category a) (bmi_category b).

(** The cells an encoded vector can hold for a record: its nine numbers,
    0 and 1. *)
Definition cells_of (input_data : PredictionInput) : list value :=
  [ VInt (age input_data); VFloat (sleep_duration input_data);
    VInt (quality_of_sleep input_data);
    VInt (physical_activity_level input_data);
    VInt (stress_level input_data); VInt (heart_rate input_data);
    VInt (daily_steps input_data); VInt (systolic_bp input_data);
    VInt (diastolic_bp input_data); VInt 0; VInt 1 ].

(** The 23 keys of [data], in the order of their assignment. *)
Definition data_keys : list string :=
  [ "Age"; "Sleep Duration"; "Quality of Sleep"; "Physical Activity Level";
    "Stress Level"; "Heart Rate"; "Daily Steps"; "Systolic_BP";
    "Diastolic_BP"; "Gender_Male"; "Occupation_Doctor"; "Occupation_Engineer";
    "Occupation_Lawyer"; "Occupation_Manager"; "Occupation_Nurse";
    "Occupation_Sales Representative"; "Occupation_Salesperson";
    "Occupation_Scientist"; "Occupation_Software Engineer";
    "Occupation_Teacher"; "BMI Category_Normal Weight"; "BMI Category_Obese";
    "BMI Category_Overweight" ].

(** ** Sample records and artifacts *)

Definition sample_all : PredictionInput :=
  {| age := 40; gender := "Male"; occupation := "Doctor";
     sleep_duration := 5%float; quality_of_sleep := 4;
     physical_activity_level := 10; stress_level := 8;
     bmi_category := "Obese"; heart_rate := 95; daily_steps := 2000;
     systolic_bp := 140; diastolic_bp := 90 |}.

Definition sample_good : PredictionInput :=
  {| age := 30; gender := "Female"; occupation := "Accountant";
     sleep_duration := 8%float; quality_of_sleep := 8;
     physical_activity_level := 45; stress_level := 3;
     bmi_category := "Normal"; heart_rate := 70; daily_steps := 8000;
     systolic_bp := 115; diastolic_bp := 75 |}.

(** [sample_all] with the other gender. *)
Definition sample_all_female : PredictionInput :=
  {| age := 40; gender := "Female"; occupation := "Doctor";
     sleep_duration := 5%float; quality_of_sleep := 4;
     physical_activity_level := 10; stress_level := 8;
     bmi_category := "Obese"; heart_rate := 95; daily_steps := 2000;
     systolic_bp := 140; diastolic_bp := 90 |}.

(** The categories of [sample_all] in other letter case. *)
Definition sample_other_case : PredictionInput :=
  {| age := 40; gender := "male"; occupation := "doctor";
     sleep_duration := 5%float; quality_of_sleep := 4;
     physical_activity_level := 10; stress_level := 8;
     bmi_category := "OBESE"; heart_rate := 95; daily_steps := 2000;
     systolic_bp := 140; diastolic_bp := 90 |}.

Definition sample_scaler : Scaler :=
  {| transform := fun df =>
       inr [map (fun v => match v with VFloat x => x | VInt _ => 0%float end)
              (row0 df)] |}.

Definition sample_model : Model.t :=
  {| Model.classes_ := ["Insomnia"; "None"; "Sleep Apnea"];
     Model.predict := fun X => inr (map (fun _ => "None") X);
     Model.predict_proba :=
       fun X => inr (map (fun _ => [0.125; 0.75; 0.125]%float) X) |}.

Definition sample_feature_names : list string :=
  ["Age"; "Sleep Duration"; "Gender_Male"; "Occupation_Doctor";
   "Occupation_Pilot"; "BMI Category_Obese"].

Definition sample_info : dict Any :=
  [("model_name", AStr "Random Forest"); ("accuracy", AFloat 0.875%float);
   ("classes", AList ["Insomnia"; "None"; "Sleep Apnea"])].

Definition sample_files : Files :=
  {| best_model_pkl := inr sample_model;
     scaler_pkl := inr sample_scaler;
     feature_names_pkl := inr sample_feature_names;
     model_info_pkl := inr sample_info |}.

(** The scaler's file is missing. *)
Definition sample_files_no_scaler : Files :=
  {| best_model_pkl := inr sample_model;
     scaler_pkl := inl (OtherError "No such file or directory: 'scaler.pkl'");
     feature_names_pkl := inr sample_feature_names;
     model_info_pkl := inr sample_info |}.

(** Metadata with all six keys, and one more. *)
Definition sample_info_full : dict Any :=
  [("model_name", AStr "Random Forest"); ("accuracy", AFloat 0.875%float);
   ("precision", AFloat 0.75%float); ("recall", AFloat 0.5%float);
   ("trained_on", AStr "2024"); ("f1_score", AFloat 0.625%float);
   ("classes", AList ["Insomnia"; "None"; "Sleep Apnea"])].

Definition sample_files_full : Files :=
  {| best_model_pkl := inr sample_model;
     scaler_pkl := inr sample_scaler;
     feature_names_pkl := inr sample_feature_names;
     model_info_pkl := inr sample_info_full |}.

(** A scaler that refuses every frame. *)
Definition sample_scaler_raising : Scaler :=
  {| transform := fun _ => inl (OtherError "X has 6 features, but 23 were expected") |}.

Definition sample_files_bad_scaler : Files :=
  {| best_model_pkl := inr sample_model;
     scaler_pkl := inr sample_scaler_raising;
     feature_names_pkl := inr sample_feature_names;
     model_info_pkl := inr sample_info |}.

(** A classifier that answers with no row. *)
Definition sample_model_empty : Model.t :=
  {| Model.classes_ := ["Insomnia"; "None"; "Sleep Apnea"];
     Model.predict := fun _ => inr [];
     Model.predict_proba := fun _ => inr [] |}.

Definition sample_files_empty_model : Files :=
  {| best_model_pkl := inr sample_model_empty;
     scaler_pkl := inr sample_scaler;
     feature_names_pkl := inr sample_feature_names;
     model_info_pkl := inr sample_info |}.

(** [sample_good] with categories the training never saw. *)
Definition sample_good_unknown : PredictionInput :=
  {| age := 30; gender := "Other"; occupation := "Pilot";
     sleep_duration := 8%float; quality_of_sleep := 8;
     physical_activity_level := 45; stress_level := 3;
     bmi_category := "Underweight"; heart_rate := 70; daily_steps := 8000;
     systolic_bp := 115; diastolic_bp := 75 |}.

(** [sample_good] with a sleep duration that is not a number. *)
Definition sample_nan : PredictionInput :=
  {| age := 30; gender := "Female"; occupation := "Accountant";
     sleep_duration := PrimFloat.nan; quality_of_sleep := 8;
     physical_activity_level := 45; stress_level := 3;
     bmi_category := "Normal"; heart_rate := 70; daily_steps := 8000;
     systolic_bp := 115; diastolic_bp := 90 |}.

(** * Properties *)

(** ** Dictionaries *)

Section DictFacts.
Context {V : Type}.
Implicit Types (d : dict V) (k : string) (v : V).

Lemma dict_get_set_same d k v : dict_get (dict_set d k v) k = Some v.
Proof.
  induction d as [| [k' v'] d IH]; simpl.
  - rewrite String.eqb_refl. reflexivity.
  - destruct (String.eqb k' k) eqn:E; simpl; rewrite E; auto.
Qed.

Lemma dict_get_set_other d k v k' :
  k <> k' -> dict_get (dict_set d k v) k' = dict_get d k'.
Proof.
  intros Hne. induction d as [| [k0 v0] d IH]; simpl.
  - apply String.eqb_neq in Hne. rewrite Hne. reflexivity.
  - destruct (String.eqb k0 k) eqn:E; simpl.
    + apply String.eqb_eq in E. subst k0.
      apply String.eqb_neq in Hne. rewrite Hne. reflexivity.
    + rewrite IH. reflexivity.
Qed.

Lemma dict_keys_set d k v k' :
  In k' (dict_keys (dict_set d k v)) <-> k' = k \/ In k' (dict_keys d).
Proof.
  unfold dict_keys. induction d as [| [k0 v0] d IH]; simpl.
  - intuition.
  - destruct (String.eqb k0 k) eqn:E; simpl.
    + apply String.eqb_eq in E. subst k0. intuition.
    + rewrite IH. intuition.
Qed.

Lemma dict_set_NoDup d k v :
  NoDup (dict_keys d) -> NoDup (dict_keys (dict_set d k v)).
Proof.
  unfold dict_keys. induction d as [| [k0 v0] d IH]; simpl; intros Hnd.
  - constructor; [ intros [] | constructor ].
  - inversion Hnd as [| ? ? Hnotin Hnd']; subst.
    destruct (String.eqb k0 k) eqn:E; simpl.
    + constructor; assumption.
    + constructor; [ | auto ].
      intros Hin. apply (dict_keys_set d k v k0) in Hin.
      destruct Hin as [-> | Hin]; [ | contradiction ].
      rewrite String.eqb_refl in E. discriminate.
Qed.

Lemma dict_update_NoDup items d :
  NoDup (dict_keys d) -> NoDup (dict_keys (dict_update d items)).
Proof.
  unfold dict_update. revert d.
  induction items as [| kv items IH]; simpl; intros d Hnd; [ assumption | ].
  apply IH, dict_set_NoDup, Hnd.
Qed.

Lemma dict_get_None d k : dict_get d k = None <-> ~ In k (dict_keys d).
Proof.
  unfold dict_keys. induction d as [| [k0 v0] d IH]; simpl.
  - intuition.
  - destruct (String.eqb_spec k0 k) as [-> | Hne].
    + split; [ discriminate | intros H; exfalso; auto ].
    + rewrite IH. intuition.
Qed.

(** A new key at the end. *)
Lemma dict_get_snoc d k v k' :
  dict_get (d ++ [(k, v)])%list k' =
  match dict_get d k' with
  | Some x => Some x
  | None => if String.eqb k k' then Some v else None
  end.
Proof.
  induction d as [| [k0 v0] d IH]; simpl; [ reflexivity | ].
  destruct (String.eqb k0 k'); [ reflexivity | exact IH ].
Qed.

(** With unique keys, the entries under one key are the one [dict_get]
    finds. *)
Lemma filter_key_NoDup d k :
  NoDup (dict_keys d) ->
  filter (fun c => String.eqb (fst c) k) d =
  match dict_get d k with
  | Some v => [(k, v)]
  | None => []
  end.
Proof.
  unfold dict_keys. induction d as [| [k0 v0] d IH]; simpl; intros Hnd;
    [ reflexivity | ].
  inversion Hnd as [| ? ? Hnotin Hnd']; subst.
  destruct (String.eqb_spec k0 k) as [-> | Hne].
  - f_equal. rewrite (IH Hnd').
    destruct (dict_get d k) eqn:E; [ | reflexivity ].
    exfalso. apply Hnotin. 
    destruct (in_dec string_dec k (map fst d)) as [Hin | Hout]; [ exact Hin | ].
    apply dict_get_None in Hout. congruence.
  - exact (IH Hnd').
Qed.
(** *** A run of assignments *)

Lemma dict_update_keys (items : list (string * V)) (d : dict V)
    (k : string) :
  In k (dict_keys (dict_update d items)) <->
  In k (dict_keys d) \/ In k (map fst items).
Proof.
  unfold dict_update. revert d.
  induction items as [| [k0 v0] items IH]; simpl; intros d; [ tauto | ].
  rewrite IH, dict_keys_set. intuition.
Qed.

Lemma dict_update_get_other (items : list (string * V)) (d : dict V)
    (k : string) :
  ~ In k (map fst items) -> dict_get (dict_update d items) k = dict_get d k.
Proof.
  unfold dict_update. revert d.
  induction items as [| [k0 v0] items IH]; simpl; intros d Hout;
    [ reflexivity | ].
  rewrite IH by tauto. apply dict_get_set_other. intros E. apply Hout. left.
  exact E.
Qed.

Lemma dict_update_get (items : list (string * V)) (d : dict V)
    (k : string) (v : V) :
  NoDup (map fst items) -> In (k, v) items ->
  dict_get (dict_update d items) k = Some v.
Proof.
  revert d. induction items as [| [k0 v0] items IH]; simpl; intros d Hnd Hin;
    [ contradiction | ].
  inversion Hnd as [| ? ? Hnotin Hnd']; subst.
  destruct Hin as [[= -> ->] | Hin].
  - change (dict_get (dict_update (dict_set d k v) items) k = Some v).
    rewrite (dict_update_get_other items _ k Hnotin).
    apply dict_get_set_same.
  - exact (IH (dict_set d k0 v0) Hnd' Hin).
Qed.
End DictFacts.

(** ** Frames *)

Lemma in_columns_get (df : DataFrame) (label : string) :
  in_columns label df =
  match dict_get df label with Some _ => true | None => false end.
Proof.
  unfold in_columns, columns. induction df as [| [k v] df IH]; simpl;
    [ reflexivity | ].
  rewrite (String.eqb_sym label k).
  destruct (String.eqb k label); simpl; [ reflexivity | exact IH ].
Qed.

(** Line 133 runs only for a label the frame lacks, where it adds a last
    column. *)
Lemma df_setitem_new (df : DataFrame) (label : string) (v : value) :
  in_columns label df = false -> df_setitem df label v = (df ++ [(label, v)])%list.
Proof. unfold df_setitem. intros ->. reflexivity. Qed.

Lemma snoc_NoDup (df : DataFrame) (label : string) (v : value) :
  NoDup (columns df) -> in_columns label df = false ->
  NoDup (columns (df ++ [(label, v)])%list).
Proof.
  intros Hnd Hnew. unfold columns. rewrite map_app. simpl.
  apply NoDup_app.
  - exact Hnd.
  - constructor; [ intros [] | constructor ].
  - intros k Hk [<- | []].
    rewrite in_columns_get in Hnew.
    destruct (dict_get df label) eqn:E; [ discriminate | ].
    apply dict_get_None in E. exact (E Hk).
Qed.

Section EnsureFeatures.
Implicit Types (df : DataFrame) (names : list string).

Lemma ensure_features_NoDup names df :
  NoDup (columns df) -> NoDup (columns (ensure_features names df)).
Proof.
  unfold ensure_features. revert df.
  induction names as [| f names IH]; simpl; intros df Hnd; [ exact Hnd | ].
  apply IH. destruct (in_columns f df) eqn:E; simpl; [ exact Hnd | ].
  rewrite (df_setitem_new _ _ _ E). apply snoc_NoDup; assumption.
Qed.

(** A column the frame has is left as it is. *)
Lemma ensure_features_keeps names df label v :
  dict_get df label = Some v ->
  dict_get (ensure_features names df) label = Some v.
Proof.
  unfold ensure_features. revert df.
  induction names as [| f names IH]; simpl; intros df Hget; [ exact Hget | ].
  apply IH. destruct (in_columns f df) eqn:E; simpl; [ exact Hget | ].
  rewrite (df_setitem_new _ _ _ E), dict_get_snoc, Hget. reflexivity.
Qed.

(** A feature the frame lacks becomes a column of 0. *)
Lemma ensure_features_fills names df label :
  dict_get df label = None -> In label names ->
  dict_get (ensure_features names df) label = Some (VInt 0).
Proof.
  revert df.
  induction names as [| f names IH]; simpl; intros df Hget Hin;
    [ contradiction | ].
  change (dict_get (ensure_features names
            (if negb (in_columns f df) then df_setitem df f (VInt 0) else df))
            label = Some (VInt 0)).
  destruct (in_columns f df) eqn:E; simpl.
  - destruct Hin as [-> | Hin].
    + rewrite in_columns_get, Hget in E. discriminate.
    + apply IH; assumption.
  - rewrite (df_setitem_new _ _ _ E).
    destruct (String.eqb_spec f label) as [-> | Hne].
    + apply ensure_features_keeps.
      rewrite dict_get_snoc, Hget, String.eqb_refl. reflexivity.
    + destruct Hin as [-> | Hin]; [ contradiction | ].
      apply IH; [ | exact Hin ].
      rewrite dict_get_snoc, Hget.
      apply String.eqb_neq in Hne. rewrite Hne. reflexivity.
Qed.

(** A label outside the features stays absent. *)
Lemma ensure_features_others names df label :
  dict_get df label = None -> ~ In label names ->
  dict_get (ensure_features names df) label = None.
Proof.
  unfold ensure_features. revert df.
  induction names as [| f names IH]; simpl; intros df Hget Hout;
    [ exact Hget | ].
  apply IH; [ | intuition ].
  destruct (in_columns f df) eqn:E; simpl; [ exact Hget | ].
  rewrite (df_setitem_new _ _ _ E), dict_get_snoc, Hget.
  destruct (String.eqb_spec f label) as [-> | Hne]; [ | reflexivity ].
  exfalso. apply Hout. left. reflexivity.
Qed.
End EnsureFeatures.

(** Selecting labels that are all columns of a frame without repeated
    labels gives one column per label, in the order of the labels. *)
Lemma df_getitem_unique (df : DataFrame) (labels : list string) :
  NoDup (columns df) ->
  (forall l, In l labels -> exists v, dict_get df l = Some v) ->
  df_getitem df labels =
  Some (map (fun l => (l, match dict_get df l with
                          | Some v => v
                          | None => VInt 0
                          end)) labels).
Proof.
  intros Hnd. induction labels as [| l labels IH]; simpl; intros Hall;
    [ reflexivity | ].
  rewrite (filter_key_NoDup df l Hnd).
  destruct (Hall l (or_introl eq_refl)) as [v Hv]. rewrite Hv.
  rewrite IH by (intros l' Hl'; apply Hall; right; exact Hl').
  reflexivity.
Qed.

(** A label that is no column is a [KeyError]. *)
Lemma df_getitem_missing (df : DataFrame) (labels : list string) (l : string) :
  In l labels -> dict_get df l = None -> df_getitem df labels = None.
Proof.
  intros Hin Hnone. induction labels as [| l0 labels IH]; simpl;
    [ contradiction | ].
  destruct Hin as [-> | Hin].
  - assert (E : filter (fun c : string * value => String.eqb (fst c) l) df = []).
    { clear IH. induction df as [| [k v] df IHdf]; simpl in *; [ reflexivity | ].
      destruct (String.eqb k l); [ discriminate | auto ]. }
    rewrite E. reflexivity.
  - rewrite (IH Hin).
    destruct (filter (fun c : string * value => String.eqb (fst c) l0) df);
      reflexivity.
Qed.

(** ** The encoder *)

Lemma one_hot_NoDup (prefix : string) (categories : list string) (x : string)
    (d : dict value) :
  NoDup (dict_keys d) -> NoDup (dict_keys (one_hot prefix categories x d)).
Proof.
  unfold one_hot. generalize (skipn 1 categories) as cs. intros cs. revert d.
  induction cs as [| c cs IH]; simpl; intros d Hnd; [ exact Hnd | ].
  apply IH, dict_set_NoDup, Hnd.
Qed.

(** The keys of [data] are distinct, so the frame built from it has no
    repeated label. *)
Lemma data_NoDup (input_data : PredictionInput) :
  NoDup (columns (pd_DataFrame (data input_data))).
Proof.
  unfold columns, pd_DataFrame, data.
  apply one_hot_NoDup, one_hot_NoDup, dict_set_NoDup, dict_update_NoDup.
  constructor.
Qed.

(** After lines 131-133 a feature name is the label of a column: the one
    [data] gave, or the 0 of line 133. *)
Lemma ensure_features_feature (input_data : PredictionInput)
    (names : list string) (label : string) :
  In label names ->
  dict_get (ensure_features names (pd_DataFrame (data input_data))) label =
  Some (feature input_data label).
Proof.
  intros Hin. unfold feature, pd_DataFrame.
  destruct (dict_get (data input_data) label) as [v |] eqn:E.
  - apply ensure_features_keeps. exact E.
  - apply ensure_features_fills; assumption.
Qed.

(** Line 136 never raises, and the frame it leaves has the feature names
    as its labels. *)
Lemma input_df_features (input_data : PredictionInput) (names : list string) :
  input_df input_data names =
  Some (map (fun label => (label, feature input_data label)) names).
Proof.
  unfold input_df. rewrite df_getitem_unique.
  - f_equal. apply map_ext_in. intros l Hl.
    rewrite (ensure_features_feature input_data names l Hl). reflexivity.
  - apply ensure_features_NoDup, data_NoDup.
  - intros l Hl. exists (feature input_data l).
    apply ensure_features_feature. exact Hl.
Qed.

(** C1. For every record and every feature schema, the encoding succeeds
    and the vector has one value per name of the schema, in the order of
    the schema: the value [data] holds under that name, and 0 for a name
    the encoding steps did not produce; a key of [data] that is no name of
    the schema is no column of the result; the lengths agree. *)
Theorem feature_vector_follows_schema
    (input_data : PredictionInput) (feature_names : list string) :
  exists df,
    input_df input_data feature_names = Some df /\
    columns df = feature_names /\
    (forall i name,
       nth_error feature_names i = Some name ->
       nth_error (row0 df) i =
       Some (match dict_get (data input_data) name with
             | Some v => v
             | None => VInt 0
             end)) /\
    (forall key,
       In key (dict_keys (data input_data)) -> ~ In key feature_names ->
       ~ In key (columns df)) /\
    List.length (row0 df) = List.length feature_names.
Proof.
  exists (map (fun label => (label, feature input_data label)) feature_names).
  split; [ apply input_df_features | ].
  assert (Hcols :
    columns (map (fun label => (label, feature input_data label)) feature_names)
    = feature_names).
  { unfold columns. rewrite map_map. simpl. apply map_id. }
  split; [ exact Hcols | split; [ | split ] ].
  - intros i name Hi. unfold row0. rewrite map_map. simpl.
    rewrite nth_error_map, Hi. reflexivity.
  - intros key _ Hout. rewrite Hcols. exact Hout.
  - unfold row0. rewrite !length_map. reflexivity.
Qed.

Lemma feature_vector_follows_schema_witness :
  exists df,
    input_df sample_all sample_feature_names = Some df /\
    columns df = sample_feature_names /\
    nth_error (row0 df) 0 = Some (VInt 40) /\
    nth_error (row0 df) 4 = Some (VInt 0) /\
    List.length (row0 df) = 6%nat.
Proof.
  destruct (feature_vector_follows_schema sample_all sample_feature_names)
    as (df & Hdf & Hcols & Hcell & _ & Hlen).
  exists df. split; [ exact Hdf | split; [ exact Hcols | split; [ | split ] ] ].
  - exact (Hcell 0%nat "Age" eq_refl).
  - exact (Hcell 4%nat "Occupation_Pilot" eq_refl).
  - exact Hlen.
Defined.

(** The dictionary [data], entry by entry. *)
Lemma data_items (input_data : PredictionInput) :
  data input_data =
  [ ("Age", VInt (age input_data));
    ("Sleep Duration", VFloat (sleep_duration input_data));
    ("Quality of Sleep", VInt (quality_of_sleep input_data));
    ("Physical Activity Level", VInt (physical_activity_level input_data));
    ("Stress Level", VInt (stress_level input_data));
    ("Heart Rate", VInt (heart_rate input_data));
    ("Daily Steps", VInt (daily_steps input_data));
    ("Systolic_BP", VInt (systolic_bp input_data));
    ("Diastolic_BP", VInt (diastolic_bp input_data));
    ("Gender_Male", indicator (gender input_data) "Male");
    ("Occupation_Doctor", indicator (occupation input_data) "Doctor");
    ("Occupation_Engineer", indicator (occupation input_data) "Engineer");
    ("Occupation_Lawyer", indicator (occupation input_data) "Lawyer");
    ("Occupation_Manager", indicator (occupation input_data) "Manager");
    ("Occupation_Nurse", indicator (occupation input_data) "Nurse");
    ("Occupation_Sales Representative",
       indicator (occupation input_data) "Sales Representative");
    ("Occupation_Salesperson", indicator (occupation input_data) "Salesperson");
    ("Occupation_Scientist", indicator (occupation input_data) "Scientist");
    ("Occupation_Software Engineer",
       indicator (occupation input_data) "Software Engineer");
    ("Occupation_Teacher", indicator (occupation input_data) "Teacher");
    ("BMI Category_Normal Weight",
       indicator (bmi_category input_data) "Normal Weight");
    ("BMI Category_Obese", indicator (bmi_category input_data) "Obese");
    ("BMI Category_Overweight",
       indicator (bmi_category input_data) "Overweight") ].
Proof. reflexivity. Qed.

Lemma occupation_indicator (input_data : PredictionInput) (c : string) :
  In c (skipn 1 occupations) ->
  dict_get (data input_data) ("Occupation_" ++ c) =
  Some (indicator (occupation input_data) c).
Proof.
  rewrite data_items. simpl.
  intros H. repeat (destruct H as [<- | H]; [ reflexivity | ]). contradiction.
Qed.

Lemma bmi_indicator (input_data : PredictionInput) (c : string) :
  In c (skipn 1 bmi_categories) ->
  dict_get (data input_data) ("BMI Category_" ++ c) =
  Some (indicator (bmi_category input_data) c).
Proof.
  rewrite data_items. simpl.
  intros H. repeat (destruct H as [<- | H]; [ reflexivity | ]). contradiction.
Qed.

Lemma gender_indicator (input_data : PredictionInput) :
  dict_get (data input_data) "Gender_Male" =
  Some (indicator (gender input_data) "Male").
Proof. reflexivity. Qed.

(** The cell of an encoded vector under a label of the schema. *)
Lemma encoded_cell (input_data : PredictionInput) (names : list string)
    (df : DataFrame) (i : nat) (label : string) :
  input_df input_data names = Some df ->
  nth_error names i = Some label ->
  nth_error (row0 df) i = Some (feature input_data label).
Proof.
  rewrite input_df_features. intros [= <-] Hi.
  unfold row0. rewrite map_map. simpl. rewrite nth_error_map, Hi. reflexivity.
Qed.

(** *** Indicators over a list of distinct categories *)

Lemma ones_indicator_absent (x : string) (cs : list string) :
  ~ In x cs -> ones (map (indicator x) cs) = 0%nat.
Proof.
  unfold ones. induction cs as [| c cs IH]; simpl; intros Hout;
    [ reflexivity | ].
  destruct (String.eqb_spec x c) as [-> | Hne].
  - exfalso. apply Hout. left. reflexivity.
  - apply IH. intuition.
Qed.

Lemma ones_indicator_le (x : string) (cs : list string) :
  NoDup cs -> (ones (map (indicator x) cs) <= 1)%nat.
Proof.
  induction cs as [| c cs IH]; intros Hnd; [ unfold ones; simpl; lia | ].
  inversion Hnd as [| ? ? Hnotin Hnd']; subst.
  unfold ones. simpl. destruct (String.eqb_spec x c) as [-> | Hne]; simpl.
  - fold (ones (map (indicator c) cs)).
    rewrite (ones_indicator_absent c cs Hnotin). lia.
  - exact (IH Hnd').
Qed.

Lemma occupations_NoDup : NoDup occupations.
Proof.
  unfold occupations.
  repeat (constructor; [ simpl; intuition discriminate | ]). constructor.
Qed.

Lemma bmi_categories_NoDup : NoDup bmi_categories.
Proof.
  unfold bmi_categories.
  repeat (constructor; [ simpl; intuition discriminate | ]). constructor.
Qed.

Lemma skipn_NoDup {A : Type} (n : nat) (l : list A) :
  NoDup l -> NoDup (skipn n l).
Proof.
  revert l. induction n as [| n IH]; intros l Hnd; [ exact Hnd | ].
  destruct l as [| a l]; [ constructor | ].
  simpl. apply IH. inversion Hnd; assumption.
Qed.

(** C3. In each one-hot group the entry of a training category other
    than the first is 1 exactly when the input string equals the category
    and 0 otherwise, so at most one indicator of the group is 1; a string
    that is none of these categories (an unknown one, or the baseline)
    leaves every indicator of the group at 0; nothing raises, and the
    encoded vector carries these entries under their labels. *)
Theorem one_hot_group_at_most_one (input_data : PredictionInput) :
  (forall c, In c (skipn 1 occupations) ->
     dict_get (data input_data) ("Occupation_" ++ c) =
     Some (VInt (if String.eqb (occupation input_data) c then 1 else 0))) /\
  (forall c, In c (skipn 1 bmi_categories) ->
     dict_get (data input_data) ("BMI Category_" ++ c) =
     Some (VInt (if String.eqb (bmi_category input_data) c then 1 else 0))) /\
  (ones (map (feature input_data) (indicator_labels "Occupation_" occupations))
   <= 1)%nat /\
  (ones (map (feature input_data)
           (indicator_labels "BMI Category_" bmi_categories)) <= 1)%nat /\
  (~ In (occupation input_data) (skipn 1 occupations) ->
   forall c, In c (skipn 1 occupations) ->
     dict_get (data input_data) ("Occupation_" ++ c) = Some (VInt 0)) /\
  (~ In (bmi_category input_data) (skipn 1 bmi_categories) ->
   forall c, In c (skipn 1 bmi_categories) ->
     dict_get (data input_data) ("BMI Category_" ++ c) = Some (VInt 0)) /\
  (forall feature_names, exists df,
     input_df input_data feature_names = Some df /\
     forall i label,
       In label (indicator_labels "Occupation_" occupations ++
                 indicator_labels "BMI Category_" bmi_categories)%list ->
       nth_error feature_names i = Some label ->
       nth_error (row0 df) i = dict_get (data input_data) label).
Proof.
  split; [ exact (occupation_indicator input_data) | ].
  split; [ exact (bmi_indicator input_data) | ].
  split.
  { change (map (feature input_data) (indicator_labels "Occupation_" occupations))
      with (map (indicator (occupation input_data)) (skipn 1 occupations)).
    apply ones_indicator_le, skipn_NoDup, occupations_NoDup. }
  split.
  { change (map (feature input_data)
              (indicator_labels "BMI Category_" bmi_categories))
      with (map (indicator (bmi_category input_data)) (skipn 1 bmi_categories)).
    apply ones_indicator_le, skipn_NoDup, bmi_categories_NoDup. }
  split.
  { intros Hout c Hc. rewrite (occupation_indicator _ _ Hc). unfold indicator.
    destruct (String.eqb_spec (occupation input_data) c) as [E | _];
      [ | reflexivity ].
    exfalso. apply Hout. rewrite E. exact Hc. }
  split.
  { intros Hout c Hc. rewrite (bmi_indicator _ _ Hc). unfold indicator.
    destruct (String.eqb_spec (bmi_category input_data) c) as [E | _];
      [ | reflexivity ].
    exfalso. apply Hout. rewrite E. exact Hc. }
  intros names. eexists. split; [ apply input_df_features | ].
  intros i label Hlabel Hi.
  rewrite (encoded_cell input_data names _ i label
             (input_df_features input_data names) Hi).
  unfold feature.
  apply in_app_or in Hlabel. unfold indicator_labels in Hlabel.
  destruct Hlabel as [Hl | Hl]; apply in_map_iff in Hl;
    destruct Hl as [c [<- Hc]].
  - rewrite (occupation_indicator _ _ Hc). reflexivity.
  - rewrite (bmi_indicator _ _ Hc). reflexivity.
Qed.

Lemma one_hot_group_at_most_one_witness :
  dict_get (data sample_all) "Occupation_Doctor" = Some (VInt 1) /\
  dict_get (data sample_all) "Occupation_Nurse" = Some (VInt 0) /\
  dict_get (data sample_good) "BMI Category_Obese" = Some (VInt 0).
Proof.
  split; [ | split ].
  - apply (proj1 (one_hot_group_at_most_one sample_all) "Doctor").
    simpl. tauto.
  - apply (proj1 (one_hot_group_at_most_one sample_all) "Nurse").
    simpl. tauto.
  - apply (proj1 (proj2 (proj2 (proj2 (proj2 (proj2
             (one_hot_group_at_most_one sample_good))))))).
    + simpl. intros H.
      repeat (destruct H as [H | H]; [ discriminate H | ]). exact H.
    + simpl. tauto.
Defined.

(** ** Records that differ in gender only *)

Lemma data_same_but_gender (a b : PredictionInput) (label : string) :
  same_but_gender a b -> label <> "Gender_Male" ->
  dict_get (data a) label = dict_get (data b) label.
Proof.
  intros (H1 & H2 & H3 & H4 & H5 & H6 & H7 & H8 & H9 & H10 & H11) Hne.
  rewrite !data_items, H1, H2, H3, H4, H5, H6, H7, H8, H9, H10, H11.
  cbn [dict_get].
  repeat match goal with
         | |- (if String.eqb ?k label then _ else _) = _ =>
             destruct (String.eqb_spec k label) as [E | _];
             [ try reflexivity; exfalso; apply Hne; symmetry; exact E | ]
         end.
  reflexivity.
Qed.

(** C6. For two records that agree in every field but gender, one
    ["Female"] and one ["Male"], both encodings succeed and the two vectors
    differ at a position exactly when the schema has the gender indicator
    there, where the first holds 0 and the second 1. *)
Theorem gender_changes_gender_column_only
    (a b : PredictionInput) (feature_names : list string) :
  same_but_gender a b -> gender a = "Female" -> gender b = "Male" ->
  exists dfa dfb,
    input_df a feature_names = Some dfa /\
    input_df b feature_names = Some dfb /\
    (forall i,
       nth_error (row0 dfa) i <> nth_error (row0 dfb) i <->
       nth_error feature_names i = Some "Gender_Male") /\
    (forall i,
       nth_error feature_names i = Some "Gender_Male" ->
       nth_error (row0 dfa) i = Some (VInt 0) /\
       nth_error (row0 dfb) i = Some (VInt 1)).
Proof.
  intros Hsame Ha Hb.
  assert (Fa : feature a "Gender_Male" = VInt 0).
  { unfold feature. rewrite gender_indicator, Ha. reflexivity. }
  assert (Fb : feature b "Gender_Male" = VInt 1).
  { unfold feature. rewrite gender_indicator, Hb. reflexivity. }
  do 2 eexists. split; [ apply input_df_features | ].
  split; [ apply input_df_features | ].
  unfold row0. rewrite !map_map. simpl. split.
  - intros i. rewrite !nth_error_map.
    destruct (nth_error feature_names i) as [label |] eqn:Hi; simpl.
    + destruct (string_dec label "Gender_Male") as [-> | Hne].
      * rewrite Fa, Fb. split; [ reflexivity | discriminate ].
      * unfold feature. rewrite (data_same_but_gender a b label Hsame Hne).
        split; [ intros H; exfalso; apply H; reflexivity | ].
        intros [= E]. contradiction.
    + split; [ intros H; exfalso; apply H; reflexivity | discriminate ].
  - intros i Hi. rewrite !nth_error_map, Hi. simpl. rewrite Fa, Fb.
    split; reflexivity.
Qed.

Lemma gender_changes_gender_column_only_witness :
  exists dfa dfb,
    input_df sample_all_female sample_feature_names = Some dfa /\
    input_df sample_all sample_feature_names = Some dfb /\
    (forall i,
       nth_error (row0 dfa) i <> nth_error (row0 dfb) i <->
       nth_error sample_feature_names i = Some "Gender_Male") /\
    (forall i,
       nth_error sample_feature_names i = Some "Gender_Male" ->
       nth_error (row0 dfa) i = Some (VInt 0) /\
       nth_error (row0 dfb) i = Some (VInt 1)).
Proof.
  apply (gender_changes_gender_column_only
           sample_all_female sample_all sample_feature_names).
  - repeat split; reflexivity.
  - reflexivity.
  - reflexivity.
Defined.

(** ** Letter case *)








(** ** The readiness check *)

(** The classifier is bound only when all four artifacts were loaded, and
    then every global is bound. *)
Lemma load_model_loaded (fs : Files) (m : Model.t) :
  model (load fs) = Some m ->
  best_model_pkl fs = inr m /\
  exists sc names info,
    scaler_pkl fs = inr sc /\ feature_names_pkl fs = inr names /\
    model_info_pkl fs = inr info /\
    load fs =
      {| model := Some m; scaler := Some sc; feature_names := Some names;
         model_info := Some info |}.
Proof.
  unfold load.
  destruct (best_model_pkl fs) as [e | m']; [ discriminate | ].
  destruct (scaler_pkl fs) as [e | sc]; [ discriminate | ].
  destruct (feature_names_pkl fs) as [e | names]; [ discriminate | ].
  destruct (model_info_pkl fs) as [e | info]; [ discriminate | ].
  simpl. intros [= ->]. split; [ reflexivity | ].
  exists sc, names, info. repeat split; reflexivity.
Qed.

(** The health check answers [True] exactly when no load raised. *)
Lemma model_loaded_iff (fs : Files) :
  model_loaded (load fs) = true <-> ~ unloaded fs.
Proof.
  unfold model_loaded, unloaded, raised, load.
  destruct (best_model_pkl fs) as [e1 | m]; simpl.
  { split; [ discriminate | intros H; exfalso; apply H; eauto ]. }
  destruct (scaler_pkl fs) as [e2 | sc]; simpl.
  { split; [ discriminate | intros H; exfalso; apply H; eauto ]. }
  destruct (feature_names_pkl fs) as [e3 | names]; simpl.
  { split; [ discriminate | intros H; exfalso; apply H; eauto ]. }
  destruct (model_info_pkl fs) as [e4 | info]; simpl.
  { split; [ discriminate | intros H; exfalso; apply H; eauto 6 ]. }
  split; [ | reflexivity ].
  intros _ [[e H] | [[e H] | [[e H] | [e H]]]]; discriminate H.
Qed.

(** C2. When one of the four artifacts failed to load, [model] is [None]
    and the endpoint fails with status 500, "Model not loaded", for every
    record, having called neither pandas nor the scaler nor the
    classifier. *)
Theorem unloaded_store_fails_first (fs : Files) :
  unloaded fs ->
  model (load fs) = None /\
  model_loaded (load fs) = false /\
  forall input_data,
    predict (load fs) input_data = ([], inl (HTTP 500 Model_not_loaded)).
Proof.
  intros Hun.
  assert (Hnone : model (load fs) = None).
  { destruct (model (load fs)) as [m |] eqn:E; [ | reflexivity ].
    exfalso. apply load_model_loaded in E.
    destruct E as (Em & sc & names & info & Es & En & Ei & _).
    destruct Hun as [[e H] | [[e H] | [[e H] | [e H]]]]; congruence. }
  split; [ exact Hnone | split ].
  - unfold model_loaded. rewrite Hnone. reflexivity.
  - intros input_data. unfold predict. rewrite Hnone. reflexivity.
Qed.

Lemma unloaded_store_fails_first_witness :
  unloaded sample_files_no_scaler /\
  model (load sample_files_no_scaler) = None /\
  predict (load sample_files_no_scaler) sample_all =
  ([], inl (HTTP 500 Model_not_loaded)).
Proof.
  assert (H : unloaded sample_files_no_scaler).
  { right. left. eexists. reflexivity. }
  split; [ exact H | ].
  destruct (unloaded_store_fails_first sample_files_no_scaler H) as (Hm & _ & Hp).
  split; [ exact Hm | exact (Hp sample_all) ].
Defined.

(** ** The response *)

Lemma bind_inr {A B : Type} (c : M A) (k : A -> M B) (tr : list call) (b : B) :
  bind c k = (tr, inr b) ->
  exists tr1 a tr2,
    c = (tr1, inr a) /\ k a = (tr2, inr b) /\ tr = (tr1 ++ tr2)%list.
Proof.
  unfold bind. destruct c as [tr1 [e | a]]; [ discriminate | ].
  destruct (k a) as [tr2 r] eqn:E. intros [= <- ->].
  exists tr1, a, tr2. split; [ reflexivity | split; [ exact E | reflexivity ] ].
Qed.

Lemma invoke_inr {A : Type} (c : call) (r : outcome A) (tr : list call) (a : A) :
  invoke c r = (tr, inr a) -> r = inr a /\ tr = [c].
Proof. unfold invoke. intros [= <- ->]. split; reflexivity. Qed.

Lemma global_inr {A : Type} (name : string) (binding : option A)
    (tr : list call) (a : A) :
  global name binding = (tr, inr a) -> binding = Some a /\ tr = [].
Proof.
  unfold global, ret, raise. destruct binding; [ | discriminate ].
  intros [= <- ->]. split; reflexivity.
Qed.

Lemma item0_inr {A : Type} (l : list A) (tr : list call) (a : A) :
  item0 l = (tr, inr a) -> (exists l', l = a :: l') /\ tr = [].
Proof.
  unfold item0, ret, raise. destruct l as [| x l']; [ discriminate | ].
  intros [= <- ->]. split; [ exists l' | ]; reflexivity.
Qed.

Ltac invert_run :=
  repeat match goal with
         | H : bind _ _ = (_, inr _) |- _ =>
             apply bind_inr in H; destruct H as (? & ? & ? & ? & ? & ?);
             cbv beta in *
         | H : invoke _ _ = (_, inr _) |- _ =>
             apply invoke_inr in H; destruct H
         | H : global _ _ = (_, inr _) |- _ =>
             apply global_inr in H; destruct H
         | H : item0 _ = (_, inr _) |- _ =>
             apply item0_inr in H; destruct H as [[? ?] ?]
         | H : ret _ = (_, inr _) |- _ =>
             unfold ret in H; injection H as ? ?
         | H : @inr _ _ _ = inr _ |- _ => injection H as H
         end.

(** A run of the first part that returns has built the frame [input_df]
    of the schema in [feature_names], by one call of pandas. *)
Lemma encode_inr (g : Globals) (input_data : PredictionInput)
    (tr : list call) (df : DataFrame) :
  encode g input_data = (tr, inr df) ->
  exists names,
    feature_names g = Some names /\
    input_df input_data names = Some df /\
    tr = [Call_DataFrame].
Proof.
  unfold encode. intros H. invert_run. subst.
  match goal with
  | Hg : feature_names g = Some ?names, Hs : select _ ?names = _ |- _ =>
      exists names; split; [ exact Hg | ]; unfold select in Hs;
      unfold input_df;
      destruct (df_getitem
                  (ensure_features names (pd_DataFrame (data input_data)))
                  names) as [df' |];
      [ | discriminate Hs ]; unfold ret in Hs; injection Hs as ? ?
  end.
  subst. split; reflexivity.
Qed.

(** With the schema loaded the first part always returns. *)
Lemma encode_returns (g : Globals) (input_data : PredictionInput)
    (names : list string) :
  feature_names g = Some names ->
  encode g input_data =
  ([Call_DataFrame],
   inr (map (fun label => (label, feature input_data label)) names)).
Proof.
  intros Hg. unfold encode. rewrite Hg.
  pose proof (input_df_features input_data names) as Hdf.
  unfold input_df in Hdf. unfold select, bind, invoke, global, ret.
  rewrite Hdf. reflexivity.
Qed.

(** What a run of the second part that returns has gone through. *)
Lemma infer_inr (g : Globals) (m : Model.t) (input_data : PredictionInput)
    (df : DataFrame) (tr : list call) (out : PredictionOutput.t) :
  infer g m input_data df = (tr, inr out) ->
  exists sc X prediction labels prediction_proba proba,
    scaler g = Some sc /\
    transform sc df = inr X /\
    Model.predict m X = inr (prediction :: labels) /\
    Model.predict_proba m X = inr (prediction_proba :: proba) /\
    PredictionOutput.prediction out = prediction /\
    PredictionOutput.confidence out =
      confidence (Model.classes_ m) prediction_proba /\
    PredictionOutput.recommendations out = generate_recommendations input_data /\
    tr = [Call_transform; Call_predict; Call_predict_proba].
Proof.
  unfold infer. intros H. invert_run.
  unfold getitem in *.
  repeat match goal with
         | E : match ?x with Some _ => _ | None => _ end = (_, inr _) |- _ =>
             destruct x; [ | discriminate E ]
         end.
  invert_run. subst. do 6 eexists. repeat split; eassumption || reflexivity.
Qed.

(** What a run of the body that returns has gone through. *)
Lemma predict_body_inr (g : Globals) (m : Model.t) (input_data : PredictionInput)
    (tr : list call) (out : PredictionOutput.t) :
  predict_body g m input_data = (tr, inr out) ->
  exists names df sc X prediction labels prediction_proba proba,
    feature_names g = Some names /\
    input_df input_data names = Some df /\
    scaler g = Some sc /\
    transform sc df = inr X /\
    Model.predict m X = inr (prediction :: labels) /\
    Model.predict_proba m X = inr (prediction_proba :: proba) /\
    PredictionOutput.prediction out = prediction /\
    PredictionOutput.confidence out =
      confidence (Model.classes_ m) prediction_proba /\
    PredictionOutput.recommendations out = generate_recommendations input_data /\
    tr = [Call_DataFrame; Call_transform; Call_predict; Call_predict_proba].
Proof.
  unfold predict_body. intros H. apply bind_inr in H.
  destruct H as (tr1 & df & tr2 & Henc & Hinf & ->).
  apply encode_inr in Henc. destruct Henc as (names & Hn & Hdf & ->).
  apply infer_inr in Hinf.
  destruct Hinf as (sc & X & y & labels & probs & proba &
                    Hsc & HX & Hy & Hp & Ho1 & Ho2 & Ho3 & ->).
  exists names, df, sc, X, y, labels, probs, proba.
  repeat split; assumption || reflexivity.
Qed.

(** With all four artifacts bound, a scaler and a classifier that return,
    and the two keys in the metadata, the endpoint returns a response. *)
Lemma predict_returns (g : Globals) (m : Model.t) (sc : Scaler)
    (names : list string) (info : dict Any) (input_data : PredictionInput)
    (X : ndarray) (prediction : string) (labels : list string)
    (prediction_proba : list float) (proba : ndarray) (name accuracy : Any) :
  model g = Some m -> scaler g = Some sc -> feature_names g = Some names ->
  model_info g = Some info ->
  transform sc (map (fun label => (label, feature input_data label)) names)
    = inr X ->
  Model.predict m X = inr (prediction :: labels) ->
  Model.predict_proba m X = inr (prediction_proba :: proba) ->
  dict_get info "model_name" = Some name ->
  dict_get info "accuracy" = Some accuracy ->
  predict g input_data =
  ([Call_DataFrame; Call_transform; Call_predict; Call_predict_proba],
   inr {| PredictionOutput.prediction := prediction;
          PredictionOutput.confidence :=
            confidence (Model.classes_ m) prediction_proba;
          PredictionOutput.recommendations :=
            generate_recommendations input_data;
          PredictionOutput.model_info :=
            [("model_name", name); ("accuracy", accuracy)] |}).
Proof.
  intros Hm Hsc Hn Hi HX Hy Hp Hname Hacc.
  unfold predict, predict_body. rewrite Hm, (encode_returns g input_data names Hn).
  unfold infer, bind, invoke, global, item0, getitem, ret.
  rewrite Hsc, HX, Hy, Hp, Hi, Hname, Hacc. reflexivity.
Qed.

Section Confidence.
Lemma combine_fst (classes : list string) (probs : list float) :
  List.length probs = List.length classes ->
  map fst (combine classes probs) = classes.
Proof.
  revert probs. induction classes as [| c classes IH]; intros [| p probs];
    simpl; intros Hlen; try reflexivity; try discriminate.
  f_equal. apply IH. lia.
Qed.


(** Each value of the mapping is the probability of its class times 100,
    the product of two floats and nothing more. *)
Lemma confidence_value (classes : list string) (probs : list float)
    (i : nat) (c : string) (p : float) :
  NoDup classes -> List.length probs = List.length classes ->
  nth_error classes i = Some c -> nth_error probs i = Some p ->
  dict_get (confidence classes probs) c = Some (p * 100)%float.
Proof.
  intros Hnd Hlen Hc Hp. unfold confidence. apply dict_update_get.
  - rewrite map_map.
    rewrite (map_ext (fun cp : string * float => fst (fst cp, (snd cp * 100)%float))
               fst (fun _ => eq_refl)).
    rewrite (combine_fst classes probs Hlen). exact Hnd.
  - apply in_map_iff. exists (c, p). split; [ reflexivity | ].
    revert i probs Hlen Hc Hp. clear Hnd.
    induction classes as [| c0 classes IH]; intros [| i] [| p0 probs] Hlen Hc Hp;
      simpl in *; try discriminate.
    + injection Hc as ->. injection Hp as ->. left. reflexivity.
    + right. apply (IH i probs); [ lia | assumption | assumption ].
Qed.

End Confidence.




(** ** The recommendation rules *)

Section Recommendations.
Variable d : PredictionInput.

(** The function is the table: the messages of the rules that fire, and
    the default message when none does. *)
Lemma generate_recommendations_fired :
  generate_recommendations d =
  match fired d with
  | [] => [msg_default]
  | l => l
  end.
Proof.
  unfold generate_recommendations, fired, rules, append_if.
  destruct (PrimFloat.ltb (sleep_duration d) 7), (quality_of_sleep d <? 6),
    (stress_level d >? 6), (physical_activity_level d <? 30),
    (daily_steps d <? 5000), (heart_rate d >? 90),
    ((systolic_bp d >? 130) || (diastolic_bp d >? 85)); reflexivity.
Qed.

Lemma fired_length : (List.length (fired d) <= 7)%nat.
Proof.
  unfold fired. rewrite length_map.
  apply (Nat.le_trans _ _ _ (filter_length_le _ _)). simpl. lia.
Qed.

Lemma fired_incl : incl (fired d) threshold_messages.
Proof.
  intros m Hm. unfold fired in Hm. apply in_map_iff in Hm.
  destruct Hm as [[b m'] [<- Hin]]. apply filter_In in Hin.
  destruct Hin as [Hin _]. unfold rules in Hin. simpl in Hin |- *.
  repeat (destruct Hin as [Hin | Hin];
          [ inversion Hin; subst; auto 10 | ]).
  contradiction.
Qed.

Lemma fired_nil_iff : fired d = [] <-> no_threshold d.
Proof.
  unfold fired, rules, no_threshold. simpl.
  destruct (PrimFloat.ltb (sleep_duration d) 7) eqn:E1;
    [ split; [ discriminate | intros [H _]; discriminate ] | ].
  destruct (Z.ltb_spec (quality_of_sleep d) 6);
    [ split; [ discriminate | intros; exfalso; lia ] | ].
  destruct (stress_level d >? 6) eqn:E3; rewrite Z.gtb_ltb in E3;
    [ apply Z.ltb_lt in E3; split; [ discriminate | intros; exfalso; lia ] | ].
  apply Z.ltb_ge in E3.
  destruct (Z.ltb_spec (physical_activity_level d) 30);
    [ split; [ discriminate | intros; exfalso; lia ] | ].
  destruct (Z.ltb_spec (daily_steps d) 5000);
    [ split; [ discriminate | intros; exfalso; lia ] | ].
  destruct (heart_rate d >? 90) eqn:E6; rewrite Z.gtb_ltb in E6;
    [ apply Z.ltb_lt in E6; split; [ discriminate | intros; exfalso; lia ] | ].
  apply Z.ltb_ge in E6.
  destruct (systolic_bp d >? 130) eqn:E7; rewrite Z.gtb_ltb in E7;
    [ apply Z.ltb_lt in E7; split; [ discriminate | intros; exfalso; lia ] | ].
  apply Z.ltb_ge in E7.
  destruct (diastolic_bp d >? 85) eqn:E8; rewrite Z.gtb_ltb in E8;
    [ apply Z.ltb_lt in E8; split; [ discriminate | intros; exfalso; lia ] | ].
  apply Z.ltb_ge in E8.
  simpl. split; [ intros _; repeat split; assumption | reflexivity ].
Qed.
End Recommendations.

(** The default message is none of the threshold messages. *)
Lemma msg_default_fresh : ~ In msg_default threshold_messages.
Proof.
  unfold threshold_messages. simpl.
  intros H. repeat (destruct H as [H | H]; [ discriminate H | ]). exact H.
Qed.

(** C7. With sleep duration 5, quality of sleep 4, stress level 8, physical
    activity level 10, 2000 daily steps, heart rate 95 and blood pressure
    140/90, whatever the other fields, the recommendations are the seven
    threshold messages in the order short sleep, poor sleep quality, high
    stress, low activity, low steps, elevated heart rate, elevated blood
    pressure; the list has length 7. *)
Theorem recommendations_all_seven (d : PredictionInput) :
  scenario_all d ->
  generate_recommendations d =
    [ msg_sleep_duration; msg_quality_of_sleep; msg_stress_level;
      msg_physical_activity; msg_daily_steps; msg_heart_rate;
      msg_blood_pressure ] /\
  List.length (generate_recommendations d) = 7%nat.
Proof.
  intros (Hsd & Hq & Hs & Hp & Hst & Hh & Hsy & Hdi).
  assert (E : generate_recommendations d = threshold_messages).
  { unfold generate_recommendations.
    rewrite Hsd, Hq, Hs, Hp, Hst, Hh, Hsy, Hdi. reflexivity. }
  rewrite E. split; reflexivity.
Qed.

Lemma recommendations_all_seven_witness :
  scenario_all sample_all /\
  generate_recommendations sample_all = threshold_messages /\
  List.length (generate_recommendations sample_all) = 7%nat.
Proof.
  split.
  - repeat split; reflexivity.
  - apply (recommendations_all_seven sample_all). repeat split; reflexivity.
Defined.

(** C8. When no threshold condition triggers, and so for sleep duration 8,
    quality of sleep 8, stress level 3, physical activity level 45, 8000
    daily steps, heart rate 70 and blood pressure 115/75, the recommendations
    are exactly the default message; the list is empty for no record. *)
Theorem recommendations_default_only (d : PredictionInput) :
  (no_threshold d -> generate_recommendations d = [msg_default]) /\
  (scenario_good d -> generate_recommendations d = [msg_default]) /\
  generate_recommendations d <> [].
Proof.
  assert (H0 : no_threshold d -> generate_recommendations d = [msg_default]).
  { intros H. apply fired_nil_iff in H.
    rewrite generate_recommendations_fired, H. reflexivity. }
  split; [ exact H0 | split ].
  - intros (Hsd & Hq & Hs & Hp & Hst & Hh & Hsy & Hdi). apply H0.
    unfold no_threshold. rewrite Hsd, Hq, Hs, Hp, Hst, Hh, Hsy, Hdi.
    repeat split; (reflexivity || lia).
  - rewrite generate_recommendations_fired.
    destruct (fired d); discriminate.
Qed.

Lemma recommendations_default_only_witness :
  no_threshold sample_good /\ scenario_good sample_good /\
  generate_recommendations sample_good = [msg_default].
Proof.
  assert (Hn : no_threshold sample_good).
  { unfold no_threshold, sample_good; simpl. repeat split; (reflexivity || lia). }
  split; [ exact Hn | split ].
  - repeat split; reflexivity.
  - exact (proj1 (recommendations_default_only sample_good) Hn).
Defined.

(** C10. The recommendations are between 1 and 7; the default message is
    among them if and only if no threshold condition fired, and then no
    threshold message is. *)
Theorem recommendations_bounds (d : PredictionInput) :
  (1 <= List.length (generate_recommendations d) <= 7)%nat /\
  (In msg_default (generate_recommendations d) <-> no_threshold d) /\
  (In msg_default (generate_recommendations d) ->
   forall m, In m threshold_messages -> ~ In m (generate_recommendations d)).
Proof.
  rewrite generate_recommendations_fired.
  pose proof (fired_length d) as Hlen.
  pose proof (fired_incl d) as Hincl.
  pose proof (fired_nil_iff d) as Hnil.
  destruct (fired d) as [| m0 l] eqn:E.
  - split; [ simpl; lia | split ].
    + split; [ intros _; apply Hnil; reflexivity | intros _; left; reflexivity ].
    + intros _ m Hm [Hin | []]. subst m. exact (msg_default_fresh Hm).
  - split; [ simpl in *; lia | split ].
    + split.
      * intros Hin. exfalso. exact (msg_default_fresh (Hincl _ Hin)).
      * intros Hn. apply Hnil in Hn. discriminate Hn.
    + intros Hin. exfalso. exact (msg_default_fresh (Hincl _ Hin)).
Qed.

Lemma recommendations_bounds_witness :
  (1 <= List.length (generate_recommendations sample_all) <= 7)%nat /\
  In msg_default (generate_recommendations sample_good) /\
  ~ In msg_sleep_duration (generate_recommendations sample_good).
Proof.
  split; [ exact (proj1 (recommendations_bounds sample_all)) | ].
  assert (Hin : In msg_default (generate_recommendations sample_good)).
  { left. reflexivity. }
  split; [ exact Hin | ].
  apply (proj2 (proj2 (recommendations_bounds sample_good)) Hin).
  left. reflexivity.
Defined.

(** * Further properties *)

(** ** The health check and the metadata endpoint *)

(** X1. After the load block the health check answers with the two keys
    [status] and [model_loaded]; [status] is ["healthy"] whether or not the
    artifacts are there, and [model_loaded] is [True] exactly when none of
    the four loads raised. *)
Theorem health_check_after_load (fs : Files) :
  dict_keys (health_check (load fs)) = ["status"; "model_loaded"] /\
  dict_get (health_check (load fs)) "status" = Some (SStr "healthy") /\
  (dict_get (health_check (load fs)) "model_loaded" = Some (SBool true) <->
   ~ unloaded fs).
Proof.
  split; [ reflexivity | split; [ reflexivity | ] ].
  rewrite <- model_loaded_iff.
  change (dict_get (health_check (load fs)) "model_loaded")
    with (Some (SBool (model_loaded (load fs)))).
  split; [ intros [= ->]; reflexivity | intros ->; reflexivity ].
Qed.

(** X2. The three endpoints agree on readiness: the health check answers
    [model_loaded] [False] exactly when [get_model_info] raises "Model not
    loaded", and exactly when [predict] does, for whatever record. *)
Theorem endpoints_agree_on_readiness (g : Globals) (input_data : PredictionInput) :
  (dict_get (health_check g) "model_loaded" = Some (SBool false) <->
   get_model_info g = HTTP_raised (HTTP 500 Model_not_loaded)) /\
  (dict_get (health_check g) "model_loaded" = Some (SBool false) <->
   snd (predict g input_data) = inl (HTTP 500 Model_not_loaded)).
Proof.
  change (dict_get (health_check g) "model_loaded")
    with (Some (SBool (model_loaded g))).
  unfold model_loaded, get_model_info, predict.
  destruct (model g) as [m |].
  - split; (split; [ discriminate | ]).
    + match goal with
      | |- match ?a with _ => _ end = _ -> _ => destruct a as [tr [e | d]]
      end; discriminate.
    + destruct (predict_body g m input_data) as [tr [e | out]]; discriminate.
  - split; split; reflexivity.
Qed.

(** The answer of [get_model_info] with the classifier and the metadata
    bound: the first missing key decides. *)
Lemma get_model_info_cases (g : Globals) (m : Model.t) (info : dict Any) :
  model g = Some m -> model_info g = Some info ->
  get_model_info g =
  match first_missing info model_info_keys with
  | Some k => Uncaught (KeyError [k])
  | None =>
      Returned
        (map (fun k => (k, match dict_get info k with
                           | Some v => v
                           | None => AStr EmptyString
                           end)) model_info_keys)
  end.
Proof.
  intros Hm Hi. unfold get_model_info, model_info_item. rewrite Hm, Hi.
  unfold first_missing, model_info_keys, global, getitem, bind, ret, raise.
  cbn [find map].
  repeat match goal with
         | |- context [dict_get info ?k] =>
             destruct (dict_get info k); [ | reflexivity ]
         end.
  reflexivity.
Qed.

(** X3. With the artifacts loaded, [get_model_info] returns exactly when
    the metadata has the six keys it reads; the answer then has these six
    keys and no other, in the order of the source, each with the value the
    metadata holds. *)
Theorem get_model_info_returns (g : Globals) (m : Model.t) (info : dict Any) :
  model g = Some m -> model_info g = Some info ->
  ((exists d, get_model_info g = Returned d) <->
   forall k, In k model_info_keys -> dict_get info k <> None) /\
  (forall d, get_model_info g = Returned d ->
     dict_keys d = model_info_keys /\
     forall k, In k model_info_keys -> dict_get d k = dict_get info k).
Proof.
  intros Hm Hi. rewrite (get_model_info_cases g m info Hm Hi).
  unfold first_missing, model_info_keys. cbn [find map].
  destruct (dict_get info "model_name") as [v1 |] eqn:E1;
    [ | split; [ split; [ intros [d H]; discriminate H
                        | intros H; exfalso; apply (H "model_name");
                          [ simpl; tauto | exact E1 ] ]
               | intros d H; discriminate H ] ].
  destruct (dict_get info "accuracy") as [v2 |] eqn:E2;
    [ | split; [ split; [ intros [d H]; discriminate H
                        | intros H; exfalso; apply (H "accuracy");
                          [ simpl; tauto | exact E2 ] ]
               | intros d H; discriminate H ] ].
  destruct (dict_get info "precision") as [v3 |] eqn:E3;
    [ | split; [ split; [ intros [d H]; discriminate H
                        | intros H; exfalso; apply (H "precision");
                          [ simpl; tauto | exact E3 ] ]
               | intros d H; discriminate H ] ].
  destruct (dict_get info "recall") as [v4 |] eqn:E4;
    [ | split; [ split; [ intros [d H]; discriminate H
                        | intros H; exfalso; apply (H "recall");
                          [ simpl; tauto | exact E4 ] ]
               | intros d H; discriminate H ] ].
  destruct (dict_get info "f1_score") as [v5 |] eqn:E5;
    [ | split; [ split; [ intros [d H]; discriminate H
                        | intros H; exfalso; apply (H "f1_score");
                          [ simpl; tauto | exact E5 ] ]
               | intros d H; discriminate H ] ].
  destruct (dict_get info "classes") as [v6 |] eqn:E6;
    [ | split; [ split; [ intros [d H]; discriminate H
                        | intros H; exfalso; apply (H "classes");
                          [ simpl; tauto | exact E6 ] ]
               | intros d H; discriminate H ] ].
  split.
  - split; [ | intros _; eexists; reflexivity ].
    intros _ k Hk. simpl in Hk.
    repeat (destruct Hk as [<- | Hk]; [ congruence | ]). contradiction.
  - intros d [= <-]. split; [ reflexivity | ].
    intros k Hk. simpl in Hk.
    repeat (destruct Hk as [<- | Hk]; [ cbn; congruence | ]). contradiction.
Qed.

Lemma get_model_info_returns_witness :
  exists d,
    get_model_info (load sample_files_full) = Returned d /\
    dict_keys d = model_info_keys /\
    dict_get d "recall" = Some (AFloat 0.5%float) /\
    dict_get d "trained_on" = None.
Proof.
  destruct (get_model_info_returns (load sample_files_full) sample_model
              sample_info_full eq_refl eq_refl) as [Hiff Hd].
  destruct (proj2 Hiff) as [d Hret].
  { intros k Hk. simpl in Hk.
    repeat (destruct Hk as [<- | Hk]; [ discriminate | ]). contradiction. }
  exists d. destruct (Hd d Hret) as [Hkeys Hval].
  split; [ exact Hret | split; [ exact Hkeys | split ] ].
  - rewrite (Hval "recall"); [ reflexivity | simpl; tauto ].
  - apply dict_get_None. rewrite Hkeys. simpl.
    intros H. repeat (destruct H as [H | H]; [ discriminate H | ]). exact H.
Defined.

(** X4. With the artifacts loaded and a key missing from the metadata,
    [get_model_info] lets the [KeyError] of the first missing key escape:
    there is no [try] around it, so no [HTTPException] is raised. *)
Theorem get_model_info_missing_key
    (g : Globals) (m : Model.t) (info : dict Any) (k : string) :
  model g = Some m -> model_info g = Some info ->
  first_missing info model_info_keys = Some k ->
  get_model_info g = Uncaught (KeyError [k]) /\
  In k model_info_keys /\ dict_get info k = None.
Proof.
  intros Hm Hi Hk. rewrite (get_model_info_cases g m info Hm Hi), Hk.
  split; [ reflexivity | ].
  unfold first_missing in Hk. apply find_some in Hk. destruct Hk as [Hin Hnone].
  split; [ exact Hin | ].
  destruct (dict_get info k); [ discriminate | reflexivity ].
Qed.

Lemma get_model_info_missing_key_witness :
  get_model_info (load sample_files) = Uncaught (KeyError ["precision"]) /\
  In "precision" model_info_keys /\ dict_get sample_info "precision" = None.
Proof.
  exact (get_model_info_missing_key (load sample_files) sample_model sample_info
           "precision" eq_refl eq_refl eq_refl).
Defined.

(** With [model] left at [None] a load has raised. *)
Lemma model_None_unloaded (fs : Files) : model (load fs) = None -> unloaded fs.
Proof.
  unfold unloaded, raised, load.
  destruct (best_model_pkl fs); [ eauto | ].
  destruct (scaler_pkl fs); [ eauto | ].
  destruct (feature_names_pkl fs); [ eauto | ].
  destruct (model_info_pkl fs); [ eauto 6 | discriminate ].
Qed.

(** X5. After the load block [get_model_info] raises "Model not loaded"
    exactly when a load raised; otherwise it returns or lets escape the
    [KeyError] of one of its six keys, and never meets an unbound name. *)
Theorem get_model_info_after_load (fs : Files) :
  (get_model_info (load fs) = HTTP_raised (HTTP 500 Model_not_loaded) <->
   unloaded fs) /\
  (forall h, get_model_info (load fs) = HTTP_raised h ->
     h = HTTP 500 Model_not_loaded) /\
  (forall e, get_model_info (load fs) = Uncaught e ->
     exists k, In k model_info_keys /\ e = KeyError [k]).
Proof.
  destruct (model (load fs)) as [m |] eqn:Hm.
  - destruct (load_model_loaded fs m Hm)
      as (Em & sc & names & info & Es & En & Ei & Hload).
    assert (Hi : model_info (load fs) = Some info) by (rewrite Hload; reflexivity).
    rewrite (get_model_info_cases (load fs) m info Hm Hi).
    assert (Hready : ~ unloaded fs).
    { apply model_loaded_iff. unfold model_loaded. rewrite Hm. reflexivity. }
    destruct (first_missing info model_info_keys) as [k |] eqn:Hk.
    + split; [ split; [ discriminate | contradiction ] | split ].
      * discriminate.
      * intros e [= <-]. exists k. split; [ | reflexivity ].
        unfold first_missing in Hk. apply find_some in Hk. exact (proj1 Hk).
    + split; [ split; [ discriminate | contradiction ] | split ]; discriminate.
  - pose proof (model_None_unloaded fs Hm) as Hun.
    unfold get_model_info. rewrite Hm.
    split; [ split; [ intros _; exact Hun | reflexivity ] | split ].
    + intros h [= <-]. reflexivity.
    + discriminate.
Qed.

(** ** The calls and the failures of [predict] *)

(** [predict] with the four globals bound, case by case: the encoding has
    no case of its own, since it cannot fail. *)
Lemma predict_cases (g : Globals) (m : Model.t) (sc : Scaler)
    (names : list string) (info : dict Any) (input_data : PredictionInput) :
  model g = Some m -> scaler g = Some sc -> feature_names g = Some names ->
  model_info g = Some info ->
  predict g input_data =
  match transform sc (map (fun label => (label, feature input_data label)) names)
  with
  | inl e =>
      ([Call_DataFrame; Call_transform], inl (HTTP 500 (Prediction_error e)))
  | inr X =>
      match Model.predict m X with
      | inl e =>
          ([Call_DataFrame; Call_transform; Call_predict],
           inl (HTTP 500 (Prediction_error e)))
      | inr [] =>
          ([Call_DataFrame; Call_transform; Call_predict],
           inl (HTTP 500 (Prediction_error IndexError)))
      | inr (prediction :: _) =>
          match Model.predict_proba m X with
          | inl e => (all_calls, inl (HTTP 500 (Prediction_error e)))
          | inr [] => (all_calls, inl (HTTP 500 (Prediction_error IndexError)))
          | inr (prediction_proba :: _) =>
              match dict_get info "model_name", dict_get info "accuracy" with
              | None, _ =>
                  (all_calls,
                   inl (HTTP 500 (Prediction_error (KeyError ["model_name"]))))
              | Some _, None =>
                  (all_calls,
                   inl (HTTP 500 (Prediction_error (KeyError ["accuracy"]))))
              | Some model_name, Some accuracy =>
                  (all_calls,
                   inr {| PredictionOutput.prediction := prediction;
                          PredictionOutput.confidence :=
                            confidence (Model.classes_ m) prediction_proba;
                          PredictionOutput.recommendations :=
                            generate_recommendations input_data;
                          PredictionOutput.model_info :=
                            [("model_name", model_name);
                             ("accuracy", accuracy)] |})
              end
          end
      end
  end.
Proof.
  intros Hm Hsc Hn Hi. unfold predict, predict_body.
  rewrite Hm, (encode_returns g input_data names Hn).
  unfold infer, bind, invoke, global, item0, getitem, ret, raise.
  rewrite Hsc, Hi.
  destruct (transform sc _) as [e | X]; [ reflexivity | ].
  destruct (Model.predict m X) as [e | [| y labels]]; try reflexivity.
  destruct (Model.predict_proba m X) as [e | [| p proba]]; try reflexivity.
  destruct (dict_get info "model_name"); [ | reflexivity ].
  destruct (dict_get info "accuracy"); reflexivity.
Qed.

(** X6. Whatever the globals and the record, [predict] makes its calls in
    the one order pandas, scaler, [predict], [predict_proba], each at most
    once and a later one only after the earlier ones; it returns a response
    only after all four. *)
Theorem predict_calls_in_order (g : Globals) (input_data : PredictionInput) :
  (exists n, fst (predict g input_data) = firstn n all_calls) /\
  (forall out, snd (predict g input_data) = inr out ->
     fst (predict g input_data) = all_calls).
Proof.
  unfold predict.
  destruct (model g) as [m |];
    [ | split; [ exists 0%nat; reflexivity | discriminate ] ].
  unfold predict_body, encode, infer, select, bind, invoke, global, item0,
    getitem, ret, raise.
  destruct (feature_names g) as [names |];
    [ | split; [ exists 1%nat; reflexivity | discriminate ] ].
  destruct (df_getitem _ names) as [df |];
    [ | split; [ exists 1%nat; reflexivity | discriminate ] ].
  destruct (scaler g) as [sc |];
    [ | split; [ exists 1%nat; reflexivity | discriminate ] ].
  destruct (transform sc df) as [e | X];
    [ split; [ exists 2%nat; reflexivity | discriminate ] | ].
  destruct (Model.predict m X) as [e | [| y labels]];
    try (split; [ exists 3%nat; reflexivity | discriminate ]).
  destruct (Model.predict_proba m X) as [e | [| p proba]];
    try (split; [ exists 4%nat; reflexivity | discriminate ]).
  destruct (model_info g) as [info |];
    [ | split; [ exists 4%nat; reflexivity | discriminate ] ].
  destruct (dict_get info "model_name");
    [ | split; [ exists 4%nat; reflexivity | discriminate ] ].
  destruct (dict_get info "accuracy");
    split; try (exists 4%nat; reflexivity); try discriminate.
  intros out _. reflexivity.
Qed.

(** X7. When the scaler raises on the encoded frame, [predict] raises
    status 500 with the scaler's exception as "Prediction error", and the
    classifier is not called. *)
Theorem predict_scaler_raises
    (g : Globals) (m : Model.t) (sc : Scaler) (names : list string)
    (input_data : PredictionInput) (df : DataFrame) (e : exn) :
  model g = Some m -> feature_names g = Some names -> scaler g = Some sc ->
  input_df input_data names = Some df ->
  transform sc df = inl e ->
  predict g input_data =
  ([Call_DataFrame; Call_transform], inl (HTTP 500 (Prediction_error e))).
Proof.
  intros Hm Hn Hsc Hdf He. rewrite input_df_features in Hdf.
  injection Hdf as <-.
  unfold predict, predict_body.
  rewrite Hm, (encode_returns g input_data names Hn).
  unfold infer, bind, invoke, global, ret. rewrite Hsc, He. reflexivity.
Qed.

Lemma predict_scaler_raises_witness :
  predict (load sample_files_bad_scaler) sample_all =
  ([Call_DataFrame; Call_transform],
   inl (HTTP 500
          (Prediction_error
             (OtherError "X has 6 features, but 23 were expected")))).
Proof.
  destruct (input_df sample_all sample_feature_names) as [df |] eqn:Hdf;
    [ | vm_compute in Hdf; discriminate Hdf ].
  exact (predict_scaler_raises (load sample_files_bad_scaler) sample_model
           sample_scaler_raising sample_feature_names sample_all df _
           eq_refl eq_refl eq_refl Hdf eq_refl).
Defined.

(** X8. When the classifier's [predict] raises, or answers with an empty
    array (an [IndexError] at [[0]]), [predict] raises status 500 and
    [predict_proba] is not called. *)
Theorem predict_classifier_fails
    (g : Globals) (m : Model.t) (sc : Scaler) (names : list string)
    (input_data : PredictionInput) (df : DataFrame) (X : ndarray) :
  model g = Some m -> feature_names g = Some names -> scaler g = Some sc ->
  input_df input_data names = Some df ->
  transform sc df = inr X ->
  (forall e, Model.predict m X = inl e ->
     predict g input_data =
     ([Call_DataFrame; Call_transform; Call_predict],
      inl (HTTP 500 (Prediction_error e)))) /\
  (Model.predict m X = inr [] ->
     predict g input_data =
     ([Call_DataFrame; Call_transform; Call_predict],
      inl (HTTP 500 (Prediction_error IndexError)))).
Proof.
  intros Hm Hn Hsc Hdf HX. rewrite input_df_features in Hdf.
  injection Hdf as <-.
  unfold predict, predict_body.
  rewrite Hm, (encode_returns g input_data names Hn).
  unfold infer, bind, invoke, global, item0, ret, raise. rewrite Hsc, HX.
  split; [ intros e He | intros He ]; rewrite He; reflexivity.
Qed.

Lemma predict_classifier_fails_witness :
  predict (load sample_files_empty_model) sample_all =
  ([Call_DataFrame; Call_transform; Call_predict],
   inl (HTTP 500 (Prediction_error IndexError))).
Proof.
  destruct (input_df sample_all sample_feature_names) as [df |] eqn:Hdf;
    [ | vm_compute in Hdf; discriminate Hdf ].
  exact (proj2 (predict_classifier_fails (load sample_files_empty_model)
                  sample_model_empty sample_scaler sample_feature_names
                  sample_all df _ eq_refl eq_refl eq_refl Hdf eq_refl)
           eq_refl).
Defined.

(** X9. After the load block the encoding step of [predict] never fails,
    for no record and no schema: a "Prediction error" comes only once the
    scaler has been called, and every exception of [predict] has status
    500. *)
Theorem predict_error_after_scaler_call
    (fs : Files) (input_data : PredictionInput) (tr : list call)
    (status_code : Z) (d : detail) :
  predict (load fs) input_data = (tr, inl (HTTP status_code d)) ->
  status_code = 500 /\
  (d = Model_not_loaded /\ tr = [] /\ unloaded fs \/
   exists e tr',
     d = Prediction_error e /\
     tr = (Call_DataFrame :: Call_transform :: tr')%list /\ ~ unloaded fs).
Proof.
  destruct (model (load fs)) as [m |] eqn:Hm.
  - destruct (load_model_loaded fs m Hm)
      as (Em & sc & names & info & Es & En & Ei & Hload).
    assert (Hready : ~ unloaded fs).
    { apply model_loaded_iff. unfold model_loaded. rewrite Hm. reflexivity. }
    rewrite (predict_cases (load fs) m sc names info input_data);
      try (rewrite Hload; reflexivity).
    unfold all_calls.
    destruct (transform sc _) as [e | X];
      [ intros [= <- <- <-]; split; [ reflexivity | right; eauto ] | ].
    destruct (Model.predict m X) as [e | [| y labels]];
      try (intros [= <- <- <-]; split; [ reflexivity | right; eauto ]).
    destruct (Model.predict_proba m X) as [e | [| p proba]];
      try (intros [= <- <- <-]; split; [ reflexivity | right; eauto ]).
    destruct (dict_get info "model_name");
      [ | intros [= <- <- <-]; split; [ reflexivity | right; eauto ] ].
    destruct (dict_get info "accuracy");
      [ discriminate | intros [= <- <- <-]; split; [ reflexivity | right; eauto ] ].
  - unfold predict. rewrite Hm. intros [= <- <- <-].
    split; [ reflexivity | left ]. split; [ reflexivity | split; [ reflexivity | ] ].
    exact (model_None_unloaded fs Hm).
Qed.

Lemma predict_error_after_scaler_call_witness :
  predict (load sample_files_empty_model) sample_all =
    ([Call_DataFrame; Call_transform; Call_predict],
     inl (HTTP 500 (Prediction_error IndexError))) /\
  ~ unloaded sample_files_empty_model.
Proof.
  assert (E : predict (load sample_files_empty_model) sample_all =
              ([Call_DataFrame; Call_transform; Call_predict],
               inl (HTTP 500 (Prediction_error IndexError)))).
  { vm_compute. reflexivity. }
  split; [ exact E | ].
  destruct (predict_error_after_scaler_call sample_files_empty_model sample_all
              _ _ _ E) as [_ [(H & _) | (e & tr' & _ & _ & H)]].
  - discriminate H.
  - exact H.
Defined.

(** X10. A response of [predict] carries the recommendations of
    [generate_recommendations] for the record, whatever the scaler and the
    classifier answered, and as metadata exactly the two keys [model_name]
    and [accuracy] with the values of the loaded metadata. *)
Theorem predict_response_assembly
    (g : Globals) (info : dict Any) (input_data : PredictionInput)
    (tr : list call) (out : PredictionOutput.t) :
  model_info g = Some info ->
  predict g input_data = (tr, inr out) ->
  PredictionOutput.recommendations out = generate_recommendations input_data /\
  dict_keys (PredictionOutput.model_info out) = ["model_name"; "accuracy"] /\
  dict_get (PredictionOutput.model_info out) "model_name" =
    dict_get info "model_name" /\
  dict_get (PredictionOutput.model_info out) "accuracy" =
    dict_get info "accuracy".
Proof.
  intros Hi Hrun.
  destruct (model g) as [m |] eqn:Hm;
    [ | unfold predict in Hrun; rewrite Hm in Hrun; discriminate ].
  assert (Hbody : predict_body g m input_data = (tr, inr out)).
  { unfold predict in Hrun. rewrite Hm in Hrun.
    destruct (predict_body g m input_data) as [tr' [e | out']];
      [ discriminate | ].
    injection Hrun as -> ->. reflexivity. }
  apply predict_body_inr in Hbody.
  destruct Hbody as (names & df & sc & X & y & labels & probs & proba &
                     Hn & _ & Hsc & _).
  rewrite (predict_cases g m sc names info input_data Hm Hsc Hn Hi) in Hrun.
  destruct (transform sc _) as [e | X']; [ discriminate | ].
  destruct (Model.predict m X') as [e | [| y' labels']]; try discriminate.
  destruct (Model.predict_proba m X') as [e | [| p' proba']]; try discriminate.
  destruct (dict_get info "model_name") as [n |]; [ | discriminate ].
  destruct (dict_get info "accuracy") as [a |]; [ | discriminate ].
  injection Hrun as _ <-. repeat split; reflexivity.
Qed.

Lemma predict_response_assembly_witness :
  exists tr out,
    predict (load sample_files) sample_good = (tr, inr out) /\
    PredictionOutput.recommendations out = [msg_default] /\
    dict_keys (PredictionOutput.model_info out) = ["model_name"; "accuracy"].
Proof.
  destruct (predict (load sample_files) sample_good) as [tr [e | out]] eqn:E;
    [ vm_compute in E; discriminate E | ].
  exists tr, out. split; [ reflexivity | ].
  destruct (predict_response_assembly (load sample_files) sample_info
              sample_good tr out eq_refl E) as (Hrec & Hkeys & _).
  split; [ rewrite Hrec; reflexivity | exact Hkeys ].
Defined.

(** ** What the encoder and the rules cannot see *)

Lemma indicator_same_category (categories : list string) (x y c : string) :
  same_category categories x y -> In c (skipn 1 categories) ->
  indicator x c = indicator y c.
Proof.
  intros [-> | [Hx Hy]] Hc; [ reflexivity | ].
  unfold indicator.
  destruct (String.eqb_spec x c) as [-> | _]; [ contradiction | ].
  destruct (String.eqb_spec y c) as [-> | _]; [ contradiction | reflexivity ].
Qed.

Lemma data_same_encoding (a b : PredictionInput) :
  same_encoding a b -> data a = data b.
Proof.
  intros (Hage & (Hsd & Hq & Hs & Hp & Hst & Hh & Hsy & Hdi) & Hg & Ho & Hb).
  rewrite !data_items, Hage, Hsd, Hq, Hs, Hp, Hst, Hh, Hsy, Hdi.
  assert (Eg : indicator (gender a) "Male" = indicator (gender b) "Male").
  { unfold indicator.
    destruct (String.eqb_spec (gender a) "Male") as [Ea | Ea],
             (String.eqb_spec (gender b) "Male") as [Eb | Eb];
      try reflexivity; exfalso; tauto. }
  rewrite Eg.
  repeat match goal with
         | |- context [indicator (occupation a) ?c] =>
             rewrite (indicator_same_category occupations _ _ c Ho)
               by (simpl; tauto)
         | |- context [indicator (bmi_category a) ?c] =>
             rewrite (indicator_same_category bmi_categories _ _ c Hb)
               by (simpl; tauto)
         end.
  reflexivity.
Qed.

(** X12. [generate_recommendations] reads the eight measurements and
    nothing else: two records that agree on them, whatever their age,
    gender, occupation and BMI category, get the same recommendations. *)
Theorem recommendations_read_measurements_only (a b : PredictionInput) :
  same_measurements a b ->
  generate_recommendations a = generate_recommendations b.
Proof.
  intros (Hsd & Hq & Hs & Hp & Hst & Hh & Hsy & Hdi).
  unfold generate_recommendations.
  rewrite Hsd, Hq, Hs, Hp, Hst, Hh, Hsy, Hdi. reflexivity.
Qed.

Lemma recommendations_read_measurements_only_witness :
  generate_recommendations sample_all = generate_recommendations sample_other_case.
Proof.
  apply (recommendations_read_measurements_only sample_all sample_other_case).
  repeat split; reflexivity.
Defined.

(** X11. A category the training never saw is encoded as the baseline, and
    any gender but ["Male"] as not male: two records with the same numbers
    whose categorical fields are equal or both without an indicator have
    the same [data], and [predict] answers the same for both, whatever the
    artifacts. *)
Theorem predict_blind_to_unknown_categories
    (a b : PredictionInput) (g : Globals) :
  same_encoding a b ->
  data a = data b /\ predict g a = predict g b.
Proof.
  intros Hsame. pose proof (data_same_encoding a b Hsame) as Hdata.
  split; [ exact Hdata | ].
  destruct Hsame as (_ & (Hsd & Hq & Hs & Hp & Hst & Hh & Hsy & Hdi) & _).
  unfold predict, predict_body, encode, infer, generate_recommendations.
  rewrite Hdata, Hsd, Hq, Hs, Hp, Hst, Hh, Hsy, Hdi. reflexivity.
Qed.

Lemma predict_blind_to_unknown_categories_witness :
  data sample_good = data sample_good_unknown /\
  predict (load sample_files) sample_good =
  predict (load sample_files) sample_good_unknown.
Proof.
  apply (predict_blind_to_unknown_categories sample_good sample_good_unknown
           (load sample_files)).
  split; [ reflexivity | split; [ repeat split; reflexivity | split; [ | split ] ] ].
  - split; discriminate.
  - right. split; simpl; intros H;
      repeat (destruct H as [H | H]; [ discriminate H | ]); exact H.
  - right. split; simpl; intros H;
      repeat (destruct H as [H | H]; [ discriminate H | ]); exact H.
Defined.

(** ** The rules one by one, and their order *)

Lemma filtered_In (l : list (bool * string)) (m : string) :
  In m (map snd (filter fst l)) <-> In (true, m) l.
Proof.
  rewrite in_map_iff. split.
  - intros [[b m'] [<- Hin]]. apply filter_In in Hin.
    destruct Hin as [Hin Hb]. simpl in Hb |- *. subst b. exact Hin.
  - intros Hin. exists (true, m). split; [ reflexivity | ].
    apply filter_In. split; [ exact Hin | reflexivity ].
Qed.

(** A threshold message is recommended exactly when its rule is in the
    table with a condition that holds. *)
Lemma threshold_message_In (d : PredictionInput) (m : string) :
  In m threshold_messages ->
  (In m (generate_recommendations d) <-> In (true, m) (rules d)).
Proof.
  intros Hm. rewrite <- filtered_In. fold (fired d).
  rewrite generate_recommendations_fired.
  destruct (fired d) as [| m0 l]; [ | tauto ].
  split; [ | intros [] ].
  intros [E | []]. subst m. exfalso. exact (msg_default_fresh Hm).
Qed.

Ltac solve_rule :=
  unfold rules; simpl In; split;
  [ intros H;
    repeat (destruct H as [H | H];
            [ first [ discriminate H
                    | injection H as H; exact H ] | ]);
    contradiction
  | intros H; rewrite H; repeat (first [ left; reflexivity | right ]) ].

(** X13. Each threshold message is among the recommendations exactly when
    its own condition holds, with the strict comparisons of the source:
    sleep duration below 7 (false for a NaN), quality below 6, stress above
    6, activity below 30, steps below 5000, heart rate above 90, systolic
    pressure above 130 or diastolic above 85. *)
Theorem each_rule_fires_iff (d : PredictionInput) :
  (In msg_sleep_duration (generate_recommendations d) <->
   PrimFloat.ltb (sleep_duration d) 7%float = true) /\
  (In msg_quality_of_sleep (generate_recommendations d) <->
   quality_of_sleep d < 6) /\
  (In msg_stress_level (generate_recommendations d) <-> 6 < stress_level d) /\
  (In msg_physical_activity (generate_recommendations d) <->
   physical_activity_level d < 30) /\
  (In msg_daily_steps (generate_recommendations d) <-> daily_steps d < 5000) /\
  (In msg_heart_rate (generate_recommendations d) <-> 90 < heart_rate d) /\
  (In msg_blood_pressure (generate_recommendations d) <->
   130 < systolic_bp d \/ 85 < diastolic_bp d).
Proof.
  assert (R1 : In (true, msg_sleep_duration) (rules d) <->
               PrimFloat.ltb (sleep_duration d) 7%float = true) by solve_rule.
  assert (R2 : In (true, msg_quality_of_sleep) (rules d) <->
               (quality_of_sleep d <? 6) = true) by solve_rule.
  assert (R3 : In (true, msg_stress_level) (rules d) <->
               (stress_level d >? 6) = true) by solve_rule.
  assert (R4 : In (true, msg_physical_activity) (rules d) <->
               (physical_activity_level d <? 30) = true) by solve_rule.
  assert (R5 : In (true, msg_daily_steps) (rules d) <->
               (daily_steps d <? 5000) = true) by solve_rule.
  assert (R6 : In (true, msg_heart_rate) (rules d) <->
               (heart_rate d >? 90) = true) by solve_rule.
  assert (R7 : In (true, msg_blood_pressure) (rules d) <->
               (systolic_bp d >? 130) || (diastolic_bp d >? 85) = true)
    by solve_rule.
  rewrite !threshold_message_In by (simpl; tauto).
  rewrite R1, R2, R3, R4, R5, R6, R7.
  rewrite orb_true_iff, !Z.gtb_ltb, !Z.ltb_lt. tauto.
Qed.

Lemma each_rule_fires_iff_witness :
  ~ In msg_sleep_duration (generate_recommendations sample_nan) /\
  In msg_blood_pressure (generate_recommendations sample_nan).
Proof.
  destruct (each_rule_fires_iff sample_nan) as (H1 & _ & _ & _ & _ & _ & H7).
  split.
  - intros Hin. apply H1 in Hin. vm_compute in Hin. discriminate Hin.
  - apply H7. right. reflexivity.
Defined.

Section Subsequence.
Context {A : Type}.

Lemma subsequence_In (l l' : list A) (x : A) :
  subsequence l l' -> In x l -> In x l'.
Proof.
  induction 1 as [| y l l' _ IH | y l l' _ IH]; simpl; intros Hin.
  - exact Hin.
  - right. exact (IH Hin).
  - destruct Hin as [-> | Hin]; [ left; reflexivity | right; exact (IH Hin) ].
Qed.

Lemma subsequence_NoDup (l l' : list A) :
  subsequence l l' -> NoDup l' -> NoDup l.
Proof.
  induction 1 as [| y l l' _ IH | y l l' Hsub IH]; intros Hnd.
  - exact Hnd.
  - inversion Hnd; subst. auto.
  - inversion Hnd as [| ? ? Hout Hnd']; subst. constructor; [ | auto ].
    intros Hin. apply Hout. exact (subsequence_In _ _ _ Hsub Hin).
Qed.

Lemma subsequence_length (l l' : list A) :
  subsequence l l' -> (List.length l <= List.length l')%nat.
Proof. induction 1; simpl; lia. Qed.
End Subsequence.

Lemma filtered_subsequence (l : list (bool * string)) :
  subsequence (map snd (filter fst l)) (map snd l).
Proof.
  induction l as [| [[|] m] l IH]; simpl.
  - constructor.
  - apply subsequence_keep. exact IH.
  - apply subsequence_skip. exact IH.
Qed.

Lemma threshold_messages_NoDup : NoDup threshold_messages.
Proof.
  unfold threshold_messages.
  repeat (constructor; [ simpl; intuition discriminate | ]). constructor.
Qed.

(** X14. For every record the recommendations are either the default
    message alone, or threshold messages in the order of the source with
    some left out; no message is recommended twice (the blood pressure
    message once, also when both pressures are high). *)
Theorem recommendations_keep_order (d : PredictionInput) :
  (generate_recommendations d = [msg_default] \/
   subsequence (generate_recommendations d) threshold_messages) /\
  NoDup (generate_recommendations d).
Proof.
  rewrite generate_recommendations_fired.
  assert (Hsub : subsequence (fired d) threshold_messages).
  { exact (filtered_subsequence (rules d)). }
  destruct (fired d) as [| m l] eqn:E.
  - split; [ left; reflexivity | ].
    constructor; [ intros [] | constructor ].
  - split; [ right; exact Hsub | ].
    exact (subsequence_NoDup _ _ Hsub threshold_messages_NoDup).
Qed.

(** ** The confidence mapping when classes and probabilities disagree *)

Section Zip.
Context {V : Type}.

(** An assignment under a new key adds a last entry. *)
Lemma dict_set_new (d : dict V) (k : string) (v : V) :
  ~ In k (dict_keys d) -> dict_set d k v = (d ++ [(k, v)])%list.
Proof.
  unfold dict_keys. induction d as [| [k0 v0] d IH]; simpl; intros Hout;
    [ reflexivity | ].
  destruct (String.eqb_spec k0 k) as [-> | _]; [ exfalso; tauto | ].
  rewrite IH by tauto. reflexivity.
Qed.

(** Assignments under distinct new keys are kept in their order. *)
Lemma dict_update_fresh (items : list (string * V)) (d : dict V) :
  NoDup (dict_keys d ++ map fst items) ->
  dict_update d items = (d ++ items)%list.
Proof.
  unfold dict_update. revert d.
  induction items as [| [k v] items IH]; simpl; intros d Hnd.
  - rewrite app_nil_r. reflexivity.
  - assert (Hk : ~ In k (dict_keys d)).
    { intros Hin. apply NoDup_remove_2 in Hnd. apply Hnd.
      apply in_or_app. left. exact Hin. }
    rewrite (dict_set_new d k v Hk), IH.
    + rewrite <- app_assoc. reflexivity.
    + unfold dict_keys in *. rewrite map_app. simpl. rewrite <- app_assoc.
      exact Hnd.
Qed.

(** [zip] stops with the shorter list. *)
Lemma combine_fst_firstn (l : list string) (l' : list V) :
  map fst (combine l l') = firstn (List.length l') l.
Proof.
  revert l'. induction l as [| a l IH]; intros [| b l']; simpl;
    try reflexivity.
  f_equal. apply IH.
Qed.
End Zip.

Lemma firstn_NoDup {A : Type} (n : nat) (l : list A) :
  NoDup l -> NoDup (firstn n l).
Proof.
  revert l. induction n as [| n IH]; intros [| a l] Hnd; simpl;
    try constructor.
  - inversion Hnd as [| ? ? Hout Hnd']; subst.
    intros Hin. apply Hout.
    rewrite <- (firstn_skipn n l). apply in_or_app. left. exact Hin.
  - inversion Hnd; subst. apply IH. assumption.
Qed.

Lemma confidence_items_fst (classes : list string) (probs : list float) :
  map fst
    (map (fun cp : string * float => (fst cp, (snd cp * 100)%float))
       (combine classes probs)) =
  firstn (List.length probs) classes.
Proof.
  rewrite map_map.
  rewrite (map_ext (fun cp : string * float => fst (fst cp, (snd cp * 100)%float))
             fst (fun _ => eq_refl)).
  apply combine_fst_firstn.
Qed.

Lemma confidence_keys_firstn (classes : list string) (probs : list float)
    (c : string) :
  In c (dict_keys (confidence classes probs)) <->
  In c (firstn (List.length probs) classes).
Proof.
  unfold confidence. rewrite dict_update_keys, confidence_items_fst.
  simpl. tauto.
Qed.

(** X15. The confidence mapping has as keys the classes that got a
    probability: [zip] stops with the shorter of the class list and the
    probability row, so a class beyond the row is left out without an
    error; no key repeats, and with distinct classes the keys keep the
    order of the classifier. *)
Theorem confidence_keys_follow_zip (classes : list string) (probs : list float) :
  NoDup (dict_keys (confidence classes probs)) /\
  (forall c, In c (dict_keys (confidence classes probs)) <->
             In c (firstn (List.length probs) classes)) /\
  (List.length (confidence classes probs) <=
   Nat.min (List.length classes) (List.length probs))%nat /\
  (NoDup classes ->
   dict_keys (confidence classes probs) = firstn (List.length probs) classes).
Proof.
  assert (Hnd : NoDup (dict_keys (confidence classes probs))).
  { unfold confidence. apply dict_update_NoDup. constructor. }
  assert (Hin : forall c, In c (dict_keys (confidence classes probs)) <->
                          In c (firstn (List.length probs) classes)).
  { intros c. apply confidence_keys_firstn. }
  split; [ exact Hnd | split; [ exact Hin | split ] ].
  - replace (List.length (confidence classes probs))
      with (List.length (dict_keys (confidence classes probs)))
      by (unfold dict_keys; apply length_map).
    apply (Nat.le_trans _ (List.length (firstn (List.length probs) classes))).
    + apply NoDup_incl_length; [ exact Hnd | ].
      intros c Hc. apply Hin. exact Hc.
    + rewrite length_firstn. lia.
  - intros Hcl. unfold confidence. rewrite dict_update_fresh.
    + unfold dict_keys. simpl. apply confidence_items_fst.
    + simpl. rewrite confidence_items_fst. apply firstn_NoDup. exact Hcl.
Qed.

Lemma confidence_keys_follow_zip_witness :
  dict_keys (confidence ["Insomnia"; "None"; "Sleep Apnea"]
               [0.25%float; 0.75%float]) = ["Insomnia"; "None"].
Proof.
  apply (confidence_keys_follow_zip ["Insomnia"; "None"; "Sleep Apnea"]
           [0.25%float; 0.75%float]).
  repeat (constructor; [ simpl; intuition discriminate | ]). constructor.
Defined.

(** X16. With distinct classes, the confidence of the class at position
    [i] is the float product of the probability at position [i] and 100,
    with no rounding call and no clamping; a class at a position the
    probability row does not reach has no entry. *)
Theorem confidence_is_probability_times_100
    (classes : list string) (probs : list float) (i : nat) (c : string) :
  NoDup classes -> nth_error classes i = Some c ->
  dict_get (confidence classes probs) c =
  match nth_error probs i with
  | Some p => Some (p * 100)%float
  | None => None
  end.
Proof.
  intros Hnd Hc. destruct (nth_error probs i) as [p |] eqn:Hp.
  - unfold confidence. apply dict_update_get.
    + rewrite confidence_items_fst. apply firstn_NoDup. exact Hnd.
    + apply in_map_iff. exists (c, p). split; [ reflexivity | ].
      clear Hnd. revert i probs Hc Hp.
      induction classes as [| c0 classes IH]; intros [| i] [| p0 probs] Hc Hp;
        simpl in *; try discriminate.
      * injection Hc as ->. injection Hp as ->. left. reflexivity.
      * right. exact (IH i probs Hc Hp).
  - apply dict_get_None. intros Hin.
    apply confidence_keys_firstn in Hin. apply In_nth_error in Hin. destruct Hin as [j Hj].
    rewrite nth_error_firstn in Hj.
    destruct (Nat.ltb_spec j (List.length probs)) as [Hlt | _];
      [ | discriminate ].
    apply nth_error_None in Hp.
    assert (Hij : j = i).
    { apply (proj1 (NoDup_nth_error classes) Hnd).
      - apply nth_error_Some. rewrite Hj. discriminate.
      - rewrite Hj, Hc. reflexivity. }
    lia.
Qed.

Lemma confidence_is_probability_times_100_witness :
  dict_get (confidence ["Insomnia"; "None"; "Sleep Apnea"]
              [0.25%float; 0.75%float]) "None" = Some 75%float /\
  dict_get (confidence ["Insomnia"; "None"; "Sleep Apnea"]
              [0.25%float; 0.75%float]) "Sleep Apnea" = None.
Proof.
  assert (Hnd : NoDup ["Insomnia"; "None"; "Sleep Apnea"]).
  { repeat (constructor; [ simpl; intuition discriminate | ]). constructor. }
  split.
  - exact (confidence_is_probability_times_100
             ["Insomnia"; "None"; "Sleep Apnea"] [0.25%float; 0.75%float]
             1 "None" Hnd eq_refl).
  - exact (confidence_is_probability_times_100
             ["Insomnia"; "None"; "Sleep Apnea"] [0.25%float; 0.75%float]
             2 "Sleep Apnea" Hnd eq_refl).
Defined.

(** ** The frame before and after the zero-fill *)

(** X17. Every cell of an encoded vector is one of the nine numbers of the
    record, unchanged and unchecked, or the integer 0 or 1: the encoder
    computes no other value. *)
Theorem encoded_cells_are_inputs_or_bits
    (input_data : PredictionInput) (feature_names : list string)
    (df : DataFrame) :
  input_df input_data feature_names = Some df ->
  Forall (fun v => In v (cells_of input_data)) (row0 df).
Proof.
  rewrite input_df_features. intros [= <-].
  unfold row0. rewrite map_map. simpl. apply Forall_forall.
  intros v Hv. apply in_map_iff in Hv. destruct Hv as [label [<- _]].
  unfold feature. rewrite data_items. cbn [dict_get]. unfold indicator, cells_of.
  repeat match goal with
         | |- context [String.eqb ?k label] =>
             destruct (String.eqb k label);
             [ repeat match goal with
                      | |- context [if ?b then 1 else 0] => destruct b
                      end;
               simpl; tauto | ]
         end.
  simpl. tauto.
Qed.

Lemma encoded_cells_are_inputs_or_bits_witness :
  exists df,
    input_df sample_all sample_feature_names = Some df /\
    Forall (fun v => In v (cells_of sample_all)) (row0 df).
Proof.
  destruct (input_df sample_all sample_feature_names) as [df |] eqn:Hdf;
    [ | vm_compute in Hdf; discriminate Hdf ].
  exists df. split; [ reflexivity | ].
  exact (encoded_cells_are_inputs_or_bits sample_all sample_feature_names df Hdf).
Defined.

Lemma in_columns_app (df extra : DataFrame) (label : string) :
  in_columns label (df ++ extra)%list =
  in_columns label df || in_columns label extra.
Proof.
  unfold in_columns, columns. rewrite map_app, existsb_app. reflexivity.
Qed.

(** X18. The zero-fill of lines 131-133 only appends: the columns the
    frame had stay as they were, value and place, and after them comes one
    column of 0 for each feature name the frame lacked, none twice. *)
Theorem ensure_features_appends (feature_names : list string) (df : DataFrame) :
  exists extra,
    ensure_features feature_names df = (df ++ extra)%list /\
    NoDup (columns extra) /\
    (forall c, In c extra ->
       snd c = VInt 0 /\ In (fst c) feature_names /\
       in_columns (fst c) df = false) /\
    (forall name, In name feature_names -> in_columns name df = false ->
       In (name, VInt 0) extra).
Proof.
  revert df. induction feature_names as [| f names IH]; intros df.
  - exists []. rewrite app_nil_r.
    split; [ reflexivity | split; [ constructor | split ] ];
      [ intros c [] | intros name [] ].
  - change (ensure_features (f :: names) df)
      with (ensure_features names
              (if negb (in_columns f df) then df_setitem df f (VInt 0) else df)).
    destruct (in_columns f df) eqn:Ef; simpl negb; cbv iota.
    + destruct (IH df) as (extra & Heq & Hnd & Hall & Hfill).
      exists extra. split; [ exact Heq | split; [ exact Hnd | split ] ].
      * intros c Hc. destruct (Hall c Hc) as (H0 & Hin & Hout).
        split; [ exact H0 | split; [ right; exact Hin | exact Hout ] ].
      * intros name [<- | Hin] Hout; [ congruence | exact (Hfill name Hin Hout) ].
    + rewrite (df_setitem_new df f (VInt 0) Ef).
      destruct (IH (df ++ [(f, VInt 0)])%list) as (extra & Heq & Hnd & Hall & Hfill).
      exists ((f, VInt 0) :: extra). rewrite Heq, <- app_assoc.
      split; [ reflexivity | split; [ | split ] ].
      * simpl. constructor; [ | exact Hnd ].
        intros Hin. unfold columns in Hin. apply in_map_iff in Hin.
        destruct Hin as [c [Hfst Hc]]. destruct (Hall c Hc) as (_ & _ & Hout).
        rewrite in_columns_app, Hfst in Hout. apply orb_false_elim in Hout.
        destruct Hout as [_ Hout]. unfold in_columns in Hout. simpl in Hout.
        rewrite String.eqb_refl in Hout. discriminate.
      * intros c [<- | Hc].
        -- simpl. split; [ reflexivity | split; [ left; reflexivity | exact Ef ] ].
        -- destruct (Hall c Hc) as (H0 & Hin & Hout).
           rewrite in_columns_app in Hout. apply orb_false_elim in Hout.
           split; [ exact H0 | split; [ right; exact Hin | exact (proj1 Hout) ] ].
      * intros name [<- | Hin] Hout; [ left; reflexivity | ].
        destruct (String.eqb_spec f name) as [-> | Hne]; [ left; reflexivity | ].
        right. apply (Hfill name Hin). rewrite in_columns_app, Hout.
        unfold in_columns. simpl. rewrite (String.eqb_sym name f).
        apply String.eqb_neq in Hne. rewrite Hne. reflexivity.
Qed.

Lemma ensure_features_present (names : list string) (df : DataFrame) :
  (forall name, In name names -> in_columns name df = true) ->
  ensure_features names df = df.
Proof.
  unfold ensure_features. induction names as [| f names IH]; simpl; intros Hall;
    [ reflexivity | ].
  rewrite (Hall f (or_introl eq_refl)). simpl. apply IH.
  intros name Hin. apply Hall. right. exact Hin.
Qed.

(** X19. The keys of [data] are the same 23 for every record, whatever its
    categories; a schema made of these keys gets no column of zeros; and
    with the 23 keys themselves as schema the encoded frame is [data],
    entry by entry. *)
Theorem data_keys_fixed (input_data : PredictionInput) :
  dict_keys (data input_data) = data_keys /\
  (forall names, incl names data_keys ->
     ensure_features names (pd_DataFrame (data input_data)) =
     pd_DataFrame (data input_data)) /\
  input_df input_data data_keys = Some (data input_data).
Proof.
  assert (Hkeys : dict_keys (data input_data) = data_keys) by reflexivity.
  split; [ exact Hkeys | split ].
  - intros names Hincl. apply ensure_features_present.
    intros name Hin. rewrite in_columns_get. unfold pd_DataFrame.
    destruct (dict_get (data input_data) name) eqn:E; [ reflexivity | ].
    apply dict_get_None in E. exfalso. apply E. rewrite Hkeys.
    exact (Hincl name Hin).
  - rewrite input_df_features. reflexivity.
Qed.

Lemma data_keys_fixed_witness :
  ensure_features ["Gender_Male"; "Age"] (pd_DataFrame (data sample_all)) =
  pd_DataFrame (data sample_all).
Proof.
  apply (proj1 (proj2 (data_keys_fixed sample_all))).
  intros name [<- | [<- | []]]; simpl; tauto.
Defined.

(** ** The load block and a run that goes through *)

(** X20. The load block leaves one of two kinds of state.  If no load
    raised, the four globals are bound to the four loaded objects, each to
    its own.  If one raised, [model] is [None], and a global is bound only
    if the ones loaded before it are: [feature_names] only with [scaler],
    [model_info] never. *)
Theorem load_all_or_nothing (fs : Files) :
  (~ unloaded fs ->
   exists m sc names info,
     best_model_pkl fs = inr m /\ scaler_pkl fs = inr sc /\
     feature_names_pkl fs = inr names /\ model_info_pkl fs = inr info /\
     load fs =
       {| model := Some m; scaler := Some sc; feature_names := Some names;
          model_info := Some info |}) /\
  (unloaded fs ->
   model (load fs) = None /\ model_info (load fs) = None /\
   (scaler (load fs) = None -> feature_names (load fs) = None)).
Proof.
  unfold unloaded, raised, load.
  destruct (best_model_pkl fs) as [e1 | m].
  { split; [ intros H; exfalso; apply H; eauto | intros _; repeat split ]. }
  destruct (scaler_pkl fs) as [e2 | sc].
  { split; [ intros H; exfalso; apply H; eauto | intros _; repeat split ]. }
  destruct (feature_names_pkl fs) as [e3 | names].
  { split; [ intros H; exfalso; apply H; eauto | intros _; repeat split ]. }
  destruct (model_info_pkl fs) as [e4 | info].
  { split; [ intros H; exfalso; apply H; eauto 6 | intros _; repeat split ].
    discriminate. }
  split.
  - intros _. exists m, sc, names, info. repeat split; reflexivity.
  - intros [[e H] | [[e H] | [[e H] | [e H]]]]; discriminate H.
Qed.

Lemma load_all_or_nothing_witness :
  (exists m sc names info,
     best_model_pkl sample_files = inr m /\ scaler_pkl sample_files = inr sc /\
     feature_names_pkl sample_files = inr names /\
     model_info_pkl sample_files = inr info /\
     load sample_files =
       {| model := Some m; scaler := Some sc; feature_names := Some names;
          model_info := Some info |}) /\
  model (load sample_files_no_scaler) = None.
Proof.
  split.
  - apply (proj1 (load_all_or_nothing sample_files)).
    intros [[e H] | [[e H] | [[e H] | [e H]]]]; discriminate H.
  - apply (proj2 (load_all_or_nothing sample_files_no_scaler)).
    right. left. eexists. reflexivity.
Defined.

(** X21. With the four globals bound, [predict] returns a response exactly
    when the scaler returns on the encoded frame, the classifier's [predict]
    and [predict_proba] both return a non-empty array on the scaler's
    output, and the metadata has [model_name] and [accuracy].  The response
    is then made of the first label, the confidence of the first row of
    probabilities, the recommendations and the two metadata values, after
    the four calls. *)
Theorem predict_returns_iff
    (g : Globals) (m : Model.t) (sc : Scaler) (names : list string)
    (info : dict Any) (input_data : PredictionInput) (df : DataFrame)
    (tr : list call) (out : PredictionOutput.t) :
  model g = Some m -> scaler g = Some sc -> feature_names g = Some names ->
  model_info g = Some info ->
  input_df input_data names = Some df ->
  (predict g input_data = (tr, inr out) <->
   exists X prediction labels prediction_proba proba model_name accuracy,
     transform sc df = inr X /\
     Model.predict m X = inr (prediction :: labels) /\
     Model.predict_proba m X = inr (prediction_proba :: proba) /\
     dict_get info "model_name" = Some model_name /\
     dict_get info "accuracy" = Some accuracy /\
     tr = all_calls /\
     out = {| PredictionOutput.prediction := prediction;
              PredictionOutput.confidence :=
                confidence (Model.classes_ m) prediction_proba;
              PredictionOutput.recommendations :=
                generate_recommendations input_data;
              PredictionOutput.model_info :=
                [("model_name", model_name); ("accuracy", accuracy)] |}).
Proof.
  intros Hm Hsc Hn Hi Hdf. rewrite input_df_features in Hdf.
  injection Hdf as <-.
  rewrite (predict_cases g m sc names info input_data Hm Hsc Hn Hi).
  split.
  - destruct (transform sc _) as [e | X] eqn:EX; [ discriminate | ].
    destruct (Model.predict m X) as [e | [| y labels]] eqn:Ey; try discriminate.
    destruct (Model.predict_proba m X) as [e | [| p proba]] eqn:Ep;
      try discriminate.
    destruct (dict_get info "model_name") as [n |] eqn:En; [ | discriminate ].
    destruct (dict_get info "accuracy") as [a |] eqn:Ea; [ | discriminate ].
    intros [= <- <-]. exists X, y, labels, p, proba, n, a.
    repeat split; reflexivity || assumption.
  - intros (X & y & labels & p & proba & n & a &
            HX & Hy & Hp & Hname & Hacc & -> & ->).
    rewrite HX, Hy, Hp, Hname, Hacc. reflexivity.
Qed.

Lemma predict_returns_iff_witness :
  exists df tr out,
    input_df sample_all sample_feature_names = Some df /\
    predict (load sample_files) sample_all = (tr, inr out) /\
    tr = all_calls /\ PredictionOutput.prediction out = "None".
Proof.
  destruct (input_df sample_all sample_feature_names) as [df |] eqn:Hdf;
    [ | vm_compute in Hdf; discriminate Hdf ].
  destruct (predict (load sample_files) sample_all) as [tr [e | out]] eqn:E;
    [ vm_compute in E; discriminate E | ].
  exists df, tr, out. split; [ reflexivity | split; [ reflexivity | ] ].
  destruct (proj1 (predict_returns_iff (load sample_files) sample_model
                     sample_scaler sample_feature_names sample_info sample_all
                     df tr out eq_refl eq_refl eq_refl eq_refl Hdf) E)
    as (X & y & labels & p & proba & n & a & HX & Hy & _ & _ & _ & Htr & Hout).
  split; [ exact Htr | ].
  rewrite Hout. simpl.
  destruct X as [| row X]; simpl in Hy; [ discriminate Hy | ].
  injection Hy as <- _. reflexivity.
Defined.
